(** * Verification of the Mechtronic 2 base station, remote button and web front end

    A shallow embedding of the parts of the repository that the
    specification talks about:
    - [firmware/base/stats.h], [firmware/base/rf_receiver.cpp]: the packet
      statistics ([stats_init], [stats_update], [stats_update_rate],
      [stats_get_loss_rate], [stats_print]);
    - [firmware/base/main_base.ino]: [print_csv_line], [setup], [loop];
    - [common/packet.h]: the packed [SensorPacket] wire layout;
    - [remote/button.cpp], [button.h]: the debouncer;
    - the live and replay tabs of the front end: the display buffers;
    - [websocket.js]: message fan-out to the registered handlers.

    Fixed-width C integers are [Z] with their wrap-around written out; the
    32-bit [float] of the AVR is a [spec_float] with 24 bits of precision and
    maximal exponent 128, computed with the Standard Library's [SpecFloat]. *)

From Stdlib Require Import ZArith List Lia Bool String Ascii.
From Stdlib Require Import Floats.SpecFloat.
Import ListNotations.
Open Scope string_scope.
Open Scope list_scope.
Open Scope Z_scope.

(** ** Fixed-width integers *)

Definition u8 (z : Z) : Z := z mod 256.
Definition u16 (z : Z) : Z := z mod 65536.
Definition u32 (z : Z) : Z := z mod 4294967296.

(** ** Single precision floats ([float] on the ATmega328P) *)

Definition prec32 : Z := 24.
Definition emax32 : Z := 128.
Definition float32 := spec_float.

(** Conversion of an integer to [float] (round to nearest even). *)
Definition f32_of_Z (z : Z) : float32 := binary_normalize prec32 emax32 z 0 false.
Definition f32_zero : float32 := S754_zero false.
Definition f32_mul (x y : float32) : float32 := SFmul prec32 emax32 x y.
Definition f32_div (x y : float32) : float32 := SFdiv prec32 emax32 x y.
Definition f32_leb (x y : float32) : bool := SFleb x y.

(** ** The statistics of the base station ([stats.h]) *)

Record Stats := mkStats {
  packets_received : Z;   (* uint32_t *)
  packets_lost : Z;       (* uint32_t *)
  last_seq : Z;           (* uint16_t *)
  seq_initialized : bool;
  rate_start_time : Z;    (* uint32_t *)
  rate_packet_count : Z;  (* uint32_t *)
  packets_per_sec : float32
}.

(** [stats_init]; [now] is the value returned by [millis()]. *)
Definition stats_init (now : Z) : Stats :=
  {| packets_received := 0;
     packets_lost := 0;
     last_seq := 0;
     seq_initialized := false;
     rate_start_time := u32 now;
     rate_packet_count := 0;
     packets_per_sec := f32_zero |}.

(** The number of lost packets computed by [stats_update] when
    [current_seq <> expected]. *)
Definition lost_count (current_seq expected : Z) : Z :=
  if expected <? current_seq
  then u16 (current_seq - expected)
  else u16 (current_seq - expected).

(** [stats_update]; the argument is converted to [uint16_t] at the call. *)
Definition stats_update (s : Stats) (seq_arg : Z) : Stats :=
  let current_seq := u16 seq_arg in
  let received := u32 (packets_received s + 1) in
  let count := u32 (rate_packet_count s + 1) in
  let lost :=
    if negb (seq_initialized s) then packets_lost s
    else
      let expected := u16 (last_seq s + 1) in
      if negb (current_seq =? expected)
      then u32 (packets_lost s + lost_count current_seq expected)
      else packets_lost s in
  {| packets_received := received;
     packets_lost := lost;
     last_seq := current_seq;
     seq_initialized := true;
     rate_start_time := rate_start_time s;
     rate_packet_count := count;
     packets_per_sec := packets_per_sec s |}.

(** A run of [stats_update] over the sequence numbers of successive packets. *)
Definition stats_run (s : Stats) (seqs : list Z) : Stats :=
  fold_left stats_update seqs s.

(** [stats_update_rate]; [elapsed] is an [unsigned long] difference. *)
Definition stats_update_rate (s : Stats) (now : Z) : Stats :=
  let elapsed := u32 (u32 now - rate_start_time s) in
  if 1000 <=? elapsed then
    {| packets_received := packets_received s;
       packets_lost := packets_lost s;
       last_seq := last_seq s;
       seq_initialized := seq_initialized s;
       rate_start_time := u32 now;
       rate_packet_count := 0;
       packets_per_sec :=
         f32_div (f32_mul (f32_of_Z (rate_packet_count s)) (f32_of_Z 1000))
                 (f32_of_Z elapsed) |}
  else s.

(** [stats_get_loss_rate]: [total] is a [uint32_t] sum. *)
Definition stats_get_loss_rate (s : Stats) : float32 :=
  let total := u32 (packets_received s + packets_lost s) in
  if total =? 0 then f32_zero
  else f32_div (f32_of_Z (packets_lost s)) (f32_of_Z total).

Example stats_trace_gap :
  packets_lost (stats_run (stats_init 0) [5; 6; 9]) = 2.
Proof. reflexivity. Qed.

Example stats_trace_wrap :
  packets_lost (stats_run (stats_init 0) [65534; 65535; 0; 1]) = 0.
Proof. reflexivity. Qed.

(** ** Invariants of the statistics *)

Lemma u32_range (z : Z) : 0 <= u32 z < 4294967296.
Proof. unfold u32; apply Z.mod_pos_bound; lia. Qed.

Lemma u16_range (z : Z) : 0 <= u16 z < 65536.
Proof. unfold u16; apply Z.mod_pos_bound; lia. Qed.

Lemma u32_id (z : Z) : 0 <= z < 4294967296 -> u32 z = z.
Proof. intros; unfold u32; apply Z.mod_small; lia. Qed.

Lemma stats_update_initialized (s : Stats) (x : Z) :
  seq_initialized (stats_update s x) = true.
Proof. reflexivity. Qed.

Lemma stats_run_initialized (l : list Z) :
  forall s, seq_initialized s = true -> seq_initialized (stats_run s l) = true.
Proof.
  induction l as [|y l IH]; intros s Hs; simpl; [exact Hs|].
  apply IH; reflexivity.
Qed.

Lemma stats_update_lost_range (s : Stats) (x : Z) :
  0 <= packets_lost s < 4294967296 ->
  0 <= packets_lost (stats_update s x) < 4294967296.
Proof.
  intros H; unfold stats_update; simpl.
  destruct (negb (seq_initialized s)); [exact H|].
  destruct (negb (u16 x =? u16 (last_seq s + 1))); [apply u32_range | exact H].
Qed.

Lemma stats_run_lost_range (l : list Z) :
  forall s, 0 <= packets_lost s < 4294967296 ->
  0 <= packets_lost (stats_run s l) < 4294967296.
Proof.
  induction l as [|y l IH]; intros s Hs; simpl; [exact Hs|].
  apply IH, stats_update_lost_range, Hs.
Qed.

(** The loss counted for one packet is the 16-bit distance from the
    expected successor. *)
Lemma stats_update_lost_step (s : Stats) (x : Z) :
  seq_initialized s = true ->
  0 <= packets_lost s < 4294967296 ->
  packets_lost (stats_update s x)
  = u32 (packets_lost s + u16 (x - u16 (last_seq s + 1))).
Proof.
  intros Hi Hr; unfold stats_update; cbn [packets_lost]; rewrite Hi; cbn [negb].
  set (e := u16 (last_seq s + 1)).
  assert (He : 0 <= e < 65536) by apply u16_range.
  assert (Hl : lost_count (u16 x) e = u16 (x - e)).
  { unfold lost_count, u16; destruct (e <? x mod 65536);
    rewrite Zminus_mod_idemp_l; reflexivity. }
  destruct (u16 x =? e) eqn:Eq; cbn [negb].
  - apply Z.eqb_eq in Eq.
    assert (H0 : u16 (x - e) = 0).
    { unfold u16 in *; rewrite <- Eq, Zminus_mod_idemp_r, Z.sub_diag; reflexivity. }
    rewrite H0, Z.add_0_r, u32_id; auto.
  - rewrite Hl; reflexivity.
Qed.

(** ** Claims on the statistics *)

(** C1: for every packet after the first one since [stats_init], [stats_update]
    adds [(s - expected) mod 65536] to the [uint32_t] counter [packets_lost],
    with [expected = (last_seq + 1) mod 65536]; the first packet after
    [stats_init] adds nothing; the traces 5,6,9 and 65534,65535,0,1 add 2 and 0. *)
Theorem stats_update_counts_gap (now x s : Z) (l : list Z) :
  let st := stats_run (stats_init now) (x :: l) in
  packets_lost (stats_update st s)
    = u32 (packets_lost st + u16 (s - u16 (last_seq st + 1)))
  /\ packets_lost (stats_update (stats_init now) s) = packets_lost (stats_init now)
  /\ packets_lost (stats_run (stats_init now) [5; 6; 9]) = 2
  /\ packets_lost (stats_run (stats_init now) [65534; 65535; 0; 1]) = 0.
Proof.
  intros st; split; [|split; [|split]]; try reflexivity.
  apply stats_update_lost_step.
  - apply (stats_run_initialized l (stats_update (stats_init now) x)); reflexivity.
  - apply (stats_run_lost_range l (stats_update (stats_init now) x)); simpl; lia.
Qed.

(** The state reached from [stats_init] after one packet with sequence
    number 0 followed by 65536 more with sequence number 0: every repeated
    number counts 65535 losses, so [packets_received + packets_lost]
    wraps around [uint32_t] to 1. *)
Definition stats_wrapped : Stats := stats_run (stats_init 0) (repeat 0 (Z.to_nat 65537)).

(** C8: at [stats_wrapped], a state reached by [stats_update] from
    [stats_init], [stats_get_loss_rate] does not divide by zero but returns
    4294901760.0, a value greater than 1.0, although [stats.h] documents the
    result as 0.0 ~ 1.0. *)
Theorem stats_get_loss_rate_overflow :
  packets_received stats_wrapped = 65537
  /\ packets_lost stats_wrapped = 4294901760
  /\ stats_get_loss_rate stats_wrapped = f32_of_Z 4294901760
  /\ f32_leb (stats_get_loss_rate stats_wrapped) (f32_of_Z 1) = false.
Proof. vm_compute. repeat split. Qed.

(** ** The serial port

    Bytes written by [Serial.print] are [OText] chunks; a [float] printed with
    [Serial.print(x, digits)] is kept as an [OFloat] event (its rendering by
    the Arduino core is not needed by any property below); [OEol] is the
    ["\r\n"] that [Serial.println] appends. *)

Inductive SerialOut :=
| OText (s : string)
| OFloat (x : float32) (digits : nat)
| OEol.

(** [Print::printNumber] in base 10: digits are produced from the least
    significant one, as the [do { ... } while (n)] loop does. *)
Definition digit_char (d : Z) : ascii := ascii_of_nat (48 + Z.to_nat d).

Fixpoint print_number_aux (fuel : nat) (n : Z) (acc : string) : string :=
  match fuel with
  | O => acc
  | S f =>
      let acc' := String (digit_char (n mod 10)) acc in
      if n / 10 =? 0 then acc' else print_number_aux f (n / 10) acc'
  end.

Definition print_number (n : Z) : string :=
  print_number_aux (S (Z.to_nat (Z.log2 n))) n EmptyString.

(** [Print::print(unsigned long)], also used for [unsigned int] and
    [unsigned char] arguments. *)
Definition ser_uint (n : Z) : list SerialOut := [OText (print_number n)].

(** [Print::print(long)], used for [int16_t] after promotion to [int]. *)
Definition render_long (n : Z) : string :=
  if n <? 0 then String "-" (print_number (- n)) else print_number n.

Definition ser_int (n : Z) : list SerialOut := [OText (render_long n)].

Definition ser_str (s : string) : list SerialOut := [OText s].
Definition ser_println_str (s : string) : list SerialOut := [OText s; OEol].
Definition ser_comma : list SerialOut := [OText ","].

(** ** The wire packet ([common/packet.h]) *)

Definition PROTOCOL_VERSION : Z := 1.
Definition PACKET_SIZE : Z := 32.

Record SensorPacket := mkPacket {
  version : Z;    (* uint8_t *)
  seq : Z;        (* uint16_t *)
  timestamp : Z;  (* uint32_t *)
  button : Z;     (* uint8_t *)
  mpu1_ax : Z; mpu1_ay : Z; mpu1_az : Z;
  mpu1_gx : Z; mpu1_gy : Z; mpu1_gz : Z;
  mpu2_ax : Z; mpu2_ay : Z; mpu2_az : Z;
  mpu2_gx : Z; mpu2_gy : Z; mpu2_gz : Z    (* int16_t *)
}.

Definition in_int16 (z : Z) : bool := (-32768 <=? z) && (z <? 32768).

(** The field values a packet can carry. *)
Definition wf_packet (p : SensorPacket) : bool :=
  (0 <=? version p) && (version p <? 256)
  && (0 <=? seq p) && (seq p <? 65536)
  && (0 <=? timestamp p) && (timestamp p <? 4294967296)
  && (0 <=? button p) && (button p <? 256)
  && forallb in_int16
       [mpu1_ax p; mpu1_ay p; mpu1_az p; mpu1_gx p; mpu1_gy p; mpu1_gz p;
        mpu2_ax p; mpu2_ay p; mpu2_az p; mpu2_gx p; mpu2_gy p; mpu2_gz p].

(** [print_csv_line] of [main_base.ino]. *)
Definition print_csv_line (p : SensorPacket) : list SerialOut :=
  ser_uint (seq p) ++ ser_comma ++
  ser_uint (timestamp p) ++ ser_comma ++
  ser_uint (button p) ++ ser_comma ++
  ser_int (mpu1_ax p) ++ ser_comma ++
  ser_int (mpu1_ay p) ++ ser_comma ++
  ser_int (mpu1_az p) ++ ser_comma ++
  ser_int (mpu1_gx p) ++ ser_comma ++
  ser_int (mpu1_gy p) ++ ser_comma ++
  ser_int (mpu1_gz p) ++ ser_comma ++
  ser_int (mpu2_ax p) ++ ser_comma ++
  ser_int (mpu2_ay p) ++ ser_comma ++
  ser_int (mpu2_az p) ++ ser_comma ++
  ser_int (mpu2_gx p) ++ ser_comma ++
  ser_int (mpu2_gy p) ++ ser_comma ++
  ser_int (mpu2_gz p) ++ [OEol].

(** ** Reading the serial stream back *)

(** The lines of a stream: the events between two [OEol]; a last line not
    yet terminated is kept. *)
Fixpoint lines_aux (o : list SerialOut) (cur : list SerialOut) : list (list SerialOut) :=
  match o with
  | [] => match cur with [] => [] | _ => [rev cur] end
  | OEol :: o' => rev cur :: lines_aux o' []
  | e :: o' => lines_aux o' (e :: cur)
  end.

Definition lines (o : list SerialOut) : list (list SerialOut) := lines_aux o [].

(** The text of a line when it holds no float. *)
Fixpoint line_text (l : list SerialOut) : option string :=
  match l with
  | [] => Some EmptyString
  | OText s :: l' => match line_text l' with Some t => Some (String.append s t) | None => None end
  | _ => None
  end.

Definition is_digit (c : ascii) : bool :=
  (48 <=? nat_of_ascii c)%nat && (nat_of_ascii c <=? 57)%nat.

Fixpoint parse_digits (s : string) (acc : Z) : option Z :=
  match s with
  | EmptyString => Some acc
  | String c r =>
      if is_digit c then parse_digits r (10 * acc + (Z.of_nat (nat_of_ascii c) - 48))
      else None
  end.

(** A decimal integer: an optional minus sign and at least one digit. *)
Definition parse_nat (s : string) : option Z :=
  match s with
  | EmptyString => None
  | _ => parse_digits s 0
  end.

Definition parse_int (s : string) : option Z :=
  match s with
  | String c r => if Ascii.eqb c "-" then option_map Z.opp (parse_nat r) else parse_nat s
  | EmptyString => None
  end.

(** The comma-separated fields of a line. *)
Fixpoint split_comma (s : string) : list string :=
  match s with
  | EmptyString => [EmptyString]
  | String c r =>
      if Ascii.eqb c "," then EmptyString :: split_comma r
      else match split_comma r with
           | f :: fs => String c f :: fs
           | [] => [String c EmptyString]
           end
  end.

(** The record order of the line-source wire format, as the spec lists it:
    [seq,t_device_ms,button,ax1,ay1,az1,gx1,gy1,gz1,ax2,ay2,az2,gx2,gy2,gz2]. *)
Definition spec_record_fields (p : SensorPacket) : list Z :=
  [seq p; timestamp p; button p;
   mpu1_ax p; mpu1_ay p; mpu1_az p; mpu1_gx p; mpu1_gy p; mpu1_gz p;
   mpu2_ax p; mpu2_ay p; mpu2_az p; mpu2_gx p; mpu2_gy p; mpu2_gz p].

Example print_number_samples :
  print_number 0 = "0"%string /\ print_number 7 = "7"%string
  /\ print_number 65535 = "65535"%string
  /\ print_number 4294967295 = "4294967295"%string.
Proof. repeat split; reflexivity. Qed.

Example csv_sample :
  lines (print_csv_line (mkPacket 1 1234 100500 0 16384 (-200) 16000 50 (-30) 10
                                  16200 (-150) 16100 45 (-25) 8))
  = [[OText "1234"; OText ","; OText "100500"; OText ","; OText "0"; OText ",";
      OText "16384"; OText ","; OText "-200"; OText ","; OText "16000"; OText ",";
      OText "50"; OText ","; OText "-30"; OText ","; OText "10"; OText ",";
      OText "16200"; OText ","; OText "-150"; OText ","; OText "16100"; OText ",";
      OText "45"; OText ","; OText "-25"; OText ","; OText "8"]].
Proof. reflexivity. Qed.

(** ** Decimal printing and parsing *)

Fixpoint string_forall (f : ascii -> bool) (s : string) : bool :=
  match s with
  | EmptyString => true
  | String c r => f c && string_forall f r
  end.

Lemma digit_char_ok (d : Z) :
  0 <= d < 10 ->
  is_digit (digit_char d) = true /\ Z.of_nat (nat_of_ascii (digit_char d)) - 48 = d.
Proof.
  intros H.
  assert (d = 0 \/ d = 1 \/ d = 2 \/ d = 3 \/ d = 4 \/ d = 5 \/ d = 6 \/ d = 7
          \/ d = 8 \/ d = 9) as Hd by lia.
  repeat destruct Hd as [Hd|Hd]; subst d; split; reflexivity.
Qed.

Lemma mod10_range (n : Z) : 0 <= n mod 10 < 10.
Proof. apply Z.mod_pos_bound; lia. Qed.

Lemma digit_not_comma (c : ascii) : is_digit c = true -> Ascii.eqb c "," = false.
Proof.
  intros H; destruct (Ascii.eqb c ",") eqn:E; [|reflexivity].
  apply Ascii.eqb_eq in E; subst c; discriminate H.
Qed.

Lemma digit_not_minus (c : ascii) : is_digit c = true -> Ascii.eqb c "-" = false.
Proof.
  intros H; destruct (Ascii.eqb c "-") eqn:E; [|reflexivity].
  apply Ascii.eqb_eq in E; subst c; discriminate H.
Qed.

Lemma print_number_aux_parse (f : nat) :
  forall n acc, 0 <= n < 10 ^ Z.of_nat f ->
  parse_digits (print_number_aux f n acc) 0 = parse_digits acc n.
Proof.
  induction f as [|f IH]; intros n acc Hn.
  - simpl in Hn; assert (n = 0) by lia; subst n; reflexivity.
  - rewrite Nat2Z.inj_succ, Z.pow_succ_r in Hn by lia.
    destruct (digit_char_ok (n mod 10) (mod10_range n)) as [Hdig Hval].
    assert (Hdm : n = 10 * (n / 10) + n mod 10) by (apply Z.div_mod; lia).
    cbn [print_number_aux]; destruct (n / 10 =? 0) eqn:E.
    + apply Z.eqb_eq in E.
      cbn [parse_digits]; rewrite Hdig, Hval; f_equal; lia.
    + rewrite IH.
      * cbn [parse_digits]; rewrite Hdig, Hval, <- Hdm; reflexivity.
      * split; [apply Z.div_pos; lia|].
        apply Z.div_lt_upper_bound; lia.
Qed.

Lemma print_number_aux_digits (f : nat) :
  forall n acc, string_forall is_digit acc = true ->
  string_forall is_digit (print_number_aux f n acc) = true.
Proof.
  induction f as [|f IH]; intros n acc Hacc; [exact Hacc|].
  destruct (digit_char_ok (n mod 10) (mod10_range n)) as [Hdig _].
  cbn [print_number_aux]; destruct (n / 10 =? 0).
  - cbn [string_forall]; rewrite Hdig; exact Hacc.
  - apply IH; cbn [string_forall]; rewrite Hdig; exact Hacc.
Qed.

Lemma print_number_aux_shape (f : nat) :
  forall n c acc, exists c' r, print_number_aux f n (String c acc) = String c' r.
Proof.
  induction f as [|f IHf].
  - intros n c acc; exists c, acc; reflexivity.
  - intros n c acc; cbn [print_number_aux].
    destruct (n / 10 =? 0).
    + exists (digit_char (n mod 10)), (String c acc); reflexivity.
    + apply IHf.
Qed.

Lemma print_number_shape (n : Z) :
  exists c r, print_number n = String c r /\ is_digit c = true
              /\ string_forall is_digit r = true.
Proof.
  unfold print_number.
  assert (Hd : string_forall is_digit
                 (print_number_aux (S (Z.to_nat (Z.log2 n))) n EmptyString) = true)
    by (apply print_number_aux_digits; reflexivity).
  cbn [print_number_aux] in Hd |- *.
  destruct (n / 10 =? 0).
  - eexists _, _; split; [reflexivity|].
    cbn [string_forall] in Hd; apply andb_prop in Hd; tauto.
  - destruct (print_number_aux_shape (Z.to_nat (Z.log2 n)) (n / 10)
                (digit_char (n mod 10)) EmptyString) as (c & r & E).
    rewrite E in Hd |- *; exists c, r; split; [reflexivity|].
    cbn [string_forall] in Hd; apply andb_prop in Hd; tauto.
Qed.

Lemma print_number_parse (n : Z) : 0 <= n -> parse_nat (print_number n) = Some n.
Proof.
  intros Hn.
  destruct (print_number_shape n) as (c & r & E & _).
  unfold parse_nat; rewrite E, <- E; unfold print_number.
  rewrite print_number_aux_parse; [reflexivity|].
  split; [exact Hn|].
  destruct (Z.eq_dec n 0) as [->|Hn0]; [simpl; lia|].
  destruct (Z.log2_spec n) as [_ Hlt]; [lia|].
  rewrite Nat2Z.inj_succ, Z2Nat.id by apply Z.log2_nonneg.
  eapply Z.lt_le_trans; [exact Hlt|].
  apply Z.pow_le_mono_l; split; [lia|lia].
Qed.

Lemma print_number_parse_int (n : Z) : 0 <= n -> parse_int (print_number n) = Some n.
Proof.
  intros Hn.
  destruct (print_number_shape n) as (c & r & E & Hc & _).
  pose proof (print_number_parse n Hn) as P.
  unfold parse_int; rewrite E in *; rewrite digit_not_minus by exact Hc; exact P.
Qed.

Lemma render_long_parse (n : Z) : parse_int (render_long n) = Some n.
Proof.
  unfold render_long; destruct (n <? 0) eqn:E.
  - apply Z.ltb_lt in E; simpl.
    rewrite print_number_parse by lia; simpl; f_equal; lia.
  - apply Z.ltb_ge in E; apply print_number_parse_int; exact E.
Qed.

(** ** Splitting a printed record at its commas *)

Definition no_comma (s : string) : bool := string_forall (fun c => negb (Ascii.eqb c ",")) s.

Lemma split_comma_app (a b : string) :
  no_comma a = true -> split_comma (String.append a (String "," b)) = a :: split_comma b.
Proof.
  induction a as [|c a IH]; intros H; [reflexivity|].
  cbn [no_comma string_forall] in H; apply andb_prop in H; destruct H as [Hc Ha].
  cbn [String.append split_comma]; apply negb_true_iff in Hc; rewrite Hc.
  unfold no_comma in IH; rewrite IH by exact Ha; reflexivity.
Qed.

Lemma split_comma_last (a : string) : no_comma a = true -> split_comma a = [a].
Proof.
  induction a as [|c a IH]; intros H; [reflexivity|].
  cbn [no_comma string_forall] in H; apply andb_prop in H; destruct H as [Hc Ha].
  cbn [split_comma]; apply negb_true_iff in Hc; rewrite Hc.
  unfold no_comma in IH; rewrite IH by exact Ha; reflexivity.
Qed.

Lemma digits_no_comma (s : string) : string_forall is_digit s = true -> no_comma s = true.
Proof.
  induction s as [|c s IH]; intros H; [reflexivity|].
  cbn [string_forall] in H; apply andb_prop in H; destruct H as [Hc Hs].
  unfold no_comma; cbn [string_forall]; rewrite digit_not_comma by exact Hc.
  apply IH, Hs.
Qed.

Lemma print_number_no_comma (n : Z) : no_comma (print_number n) = true.
Proof.
  destruct (print_number_shape n) as (c & r & E & Hc & Hr); rewrite E.
  apply digits_no_comma; cbn [string_forall]; rewrite Hc, Hr; reflexivity.
Qed.

Lemma render_long_no_comma (n : Z) : no_comma (render_long n) = true.
Proof.
  unfold render_long; destruct (n <? 0); [|apply print_number_no_comma].
  unfold no_comma; cbn [string_forall]; apply print_number_no_comma.
Qed.

Lemma string_append_empty (s : string) : String.append s EmptyString = s.
Proof. induction s as [|c s IH]; [reflexivity|cbn; rewrite IH; reflexivity]. Qed.

Lemma wf_packet_unsigned (p : SensorPacket) :
  wf_packet p = true -> 0 <= seq p /\ 0 <= timestamp p /\ 0 <= button p.
Proof.
  unfold wf_packet; intros H; repeat rewrite andb_true_iff in H.
  destruct H as [[[[[[[[_ _] H1] _] H2] _] H3] _] _].
  apply Z.leb_le in H1, H2, H3; lia.
Qed.

Create HintDb serial.
#[local] Hint Resolve print_number_no_comma render_long_no_comma : serial.

(** The text of the line written by [print_csv_line]. *)
Lemma print_csv_line_shape (p : SensorPacket) :
  wf_packet p = true ->
  exists body txt,
    print_csv_line p = (body ++ [OEol])%list
    /\ ~ In OEol body
    /\ lines (print_csv_line p) = [body]
    /\ line_text body = Some txt
    /\ map parse_int (split_comma txt) = map Some (spec_record_fields p)
    /\ (exists c r, txt = String c r /\ is_digit c = true).
Proof.
  intros Hwf; destruct (wf_packet_unsigned p Hwf) as (H1 & H2 & H3).
  exists (removelast (print_csv_line p)); eexists.
  split; [reflexivity|]. split; [cbn; intuition discriminate|].
  split; [reflexivity|]. split; [reflexivity|].
  cbn [String.append]. split.
  - repeat (rewrite split_comma_app; [|auto with serial]).
    rewrite string_append_empty, split_comma_last by auto with serial.
    cbn [map spec_record_fields].
    rewrite !render_long_parse, !print_number_parse_int by assumption.
    reflexivity.
  - destruct (print_number_shape (seq p)) as (c & r & E & Hc & _).
    rewrite E; cbn [String.append]; eauto.
Qed.

(** C4: [print_csv_line] writes one line, terminated by [println]'s line end,
    whose text splits at its commas into exactly 15 fields that read back as
    the integers seq, timestamp, button, the six MPU1 values and the six MPU2
    values, in this order (so no field is empty and no comma trails). *)
Theorem print_csv_line_record (p : SensorPacket) :
  wf_packet p = true ->
  exists body txt,
    print_csv_line p = (body ++ [OEol])%list
    /\ ~ In OEol body
    /\ lines (print_csv_line p) = [body]
    /\ line_text body = Some txt
    /\ map parse_int (split_comma txt) = map Some (spec_record_fields p)
    /\ List.length (split_comma txt) = 15%nat.
Proof.
  intros Hwf.
  destruct (print_csv_line_shape p Hwf) as (body & txt & E & N & L & T & P & _).
  exists body, txt; repeat split; auto.
  apply (f_equal (@List.length _)) in P; rewrite !length_map in P; exact P.
Qed.

(** ** The base station program ([main_base.ino]) *)

(** [stats_print]. *)
Definition stats_print (s : Stats) : list SerialOut :=
  ser_str "[STAT] rx=" ++ ser_uint (packets_received s) ++
  ser_str " lost=" ++ ser_uint (packets_lost s) ++
  ser_str " rate=" ++ [OFloat (packets_per_sec s) 1] ++
  ser_str "pps loss=" ++ [OFloat (f32_mul (stats_get_loss_rate s) (f32_of_Z 100)) 2] ++
  ser_println_str "%".

Definition SERIAL_BAUD : Z := 115200.
Definition STATS_INTERVAL : Z := 5000.
Definition NO_DATA_TIMEOUT : Z := 1000.

(** The static variables of [main_base.ino]; [led] is the level of [LED_PIN]. *)
Record Base := mkBase {
  packet : SensorPacket;
  stats : Stats;
  last_receive_time : Z;
  last_stats_time : Z;
  led : bool
}.

Definition zero_packet : SensorPacket := mkPacket 0 0 0 0 0 0 0 0 0 0 0 0 0 0 0 0.

(** The state before [setup] runs: static storage is zero. *)
Definition base_boot : Base :=
  {| packet := zero_packet; stats := stats_init 0; last_receive_time := 0;
     last_stats_time := 0; led := false |}.

(** [setup]: [rf_ok] is the result of [rf_receiver_init()] and [now] the value
    of [millis()] while [setup] runs.  When the radio fails, [setup] blinks the
    LED forever and never returns: the result is [None]. *)
Definition setup (rf_ok : bool) (now : Z) : option Base * list SerialOut :=
  let out0 := ser_println_str "#Mechtronic Base Station v2.0" in
  if negb rf_ok then (None, out0 ++ ser_println_str "#[ERROR] RF init failed!")
  else
    let out := out0 ++ ser_println_str "#[OK] RF receiver ready"
                    ++ ser_println_str "#seq,t_remote_ms,btn,ax1,ay1,az1,gx1,gy1,gz1,ax2,ay2,az2,gx2,gy2,gz2" in
    (Some {| packet := zero_packet; stats := stats_init now;
             last_receive_time := u32 now; last_stats_time := u32 now; led := false |},
     out).

(** One call of [loop]: [now] is [millis()] and [rx] the packet that
    [rf_available()]/[rf_read] deliver, if any. *)
Definition loop (b : Base) (now : Z) (rx : option SensorPacket) : Base * list SerialOut :=
  let now := u32 now in
  let '(b1, out1) :=
    match rx with
    | None => (b, [])
    | Some p =>
        if negb (version p =? PROTOCOL_VERSION) then
          ({| packet := p; stats := stats b; last_receive_time := now;
              last_stats_time := last_stats_time b; led := false |},
           ser_str "#[WARN] Bad version: " ++ ser_uint (version p) ++ [OEol])
        else
          ({| packet := p; stats := stats_update (stats b) (seq p);
              last_receive_time := now; last_stats_time := last_stats_time b;
              led := false |},
           print_csv_line p)
    end in
  let st := stats_update_rate (stats b1) now in
  let '(lst, out2) :=
    if STATS_INTERVAL <=? u32 (now - last_stats_time b1)
    then (now, stats_print st) else (last_stats_time b1, []) in
  let led' := if NO_DATA_TIMEOUT <? u32 (now - last_receive_time b1) then true else led b1 in
  ({| packet := packet b1; stats := st; last_receive_time := last_receive_time b1;
      last_stats_time := lst; led := led' |},
   out1 ++ out2).

(** ** What a consumer of the stream sees *)

Definition line_first_char (l : list SerialOut) : option ascii :=
  match l with
  | OText (String c _) :: _ => Some c
  | _ => None
  end.

(** A data record: a plain text line, not a ['#'] line, with 15 integer
    fields separated by commas. *)
Definition is_data_line (l : list SerialOut) : bool :=
  match line_text l with
  | Some (String c _ as t) =>
      negb (Ascii.eqb c "#")
      && (List.length (split_comma t) =? 15)%nat
      && forallb (fun f => match parse_int f with Some _ => true | None => false end)
                 (split_comma t)
  | _ => false
  end.

Definition count_data_lines (o : list SerialOut) : nat :=
  List.length (filter is_data_line (lines o)).

Example loop_sample :
  let b := match fst (setup true 0) with Some b => b | None => base_boot end in
  let p := mkPacket 1 7 100 0 16384 (-200) 16000 50 (-30) 10 16200 (-150) 16100 45 (-25) 8 in
  count_data_lines (snd (loop b 10 (Some p))) = 1%nat
  /\ count_data_lines (snd (loop b 10 (Some {| version := 2; seq := seq p; timestamp := 100;
       button := 0; mpu1_ax := 0; mpu1_ay := 0; mpu1_az := 0; mpu1_gx := 0; mpu1_gy := 0;
       mpu1_gz := 0; mpu2_ax := 0; mpu2_ay := 0; mpu2_az := 0; mpu2_gx := 0; mpu2_gy := 0;
       mpu2_gz := 0 |}))) = 0%nat.
Proof. vm_compute. split; reflexivity. Qed.

(** ** Lines of concatenated output *)

Lemma lines_aux_app_eol (l1 l2 : list SerialOut) :
  forall cur, lines_aux (l1 ++ OEol :: l2) cur = lines_aux (l1 ++ [OEol]) cur ++ lines_aux l2 [].
Proof.
  induction l1 as [|e l1 IH]; intros cur; [reflexivity|].
  destruct e; cbn [app lines_aux]; rewrite ?IH; reflexivity.
Qed.

Lemma count_data_lines_app (l1 l2 : list SerialOut) :
  count_data_lines ((l1 ++ [OEol]) ++ l2)
  = (count_data_lines (l1 ++ [OEol]) + count_data_lines l2)%nat.
Proof.
  unfold count_data_lines, lines.
  rewrite <- app_assoc; cbn [app]; rewrite lines_aux_app_eol, filter_app, length_app.
  reflexivity.
Qed.

Lemma count_data_lines_stats_print (s : Stats) : count_data_lines (stats_print s) = 0%nat.
Proof. reflexivity. Qed.

Lemma parsed_all_some (fs : list string) (vs : list Z) :
  map parse_int fs = map Some vs ->
  forallb (fun f => match parse_int f with Some _ => true | None => false end) fs = true.
Proof.
  revert vs; induction fs as [|f fs IH]; intros [|v vs] H; try discriminate; [reflexivity|].
  cbn in H; injection H as Hf Hfs; cbn; rewrite Hf; eapply IH; exact Hfs.
Qed.

Lemma digit_not_hash (c : ascii) : is_digit c = true -> Ascii.eqb c "#" = false.
Proof.
  intros H; destruct (Ascii.eqb c "#") eqn:E; [|reflexivity].
  apply Ascii.eqb_eq in E; subst c; discriminate H.
Qed.

Lemma print_csv_line_one_record (p : SensorPacket) :
  wf_packet p = true ->
  exists body, print_csv_line p = body ++ [OEol] /\ lines (print_csv_line p) = [body]
               /\ is_data_line body = true /\ count_data_lines (print_csv_line p) = 1%nat.
Proof.
  intros Hwf.
  destruct (print_csv_line_shape p Hwf) as (body & txt & E & _ & L & T & P & c & r & Etxt & Hc).
  assert (D : is_data_line body = true).
  { pose proof (f_equal (@List.length _) P) as Len; rewrite !length_map in Len.
    pose proof (parsed_all_some _ _ P) as A.
    unfold is_data_line; rewrite T; subst txt.
    rewrite Len, A, digit_not_hash by exact Hc; reflexivity. }
  exists body; repeat split; auto.
  unfold count_data_lines; rewrite L; cbn; rewrite D; reflexivity.
Qed.

Lemma stats_update_rate_counters (s : Stats) (now : Z) :
  packets_received (stats_update_rate s now) = packets_received s
  /\ packets_lost (stats_update_rate s now) = packets_lost s
  /\ last_seq (stats_update_rate s now) = last_seq s.
Proof. unfold stats_update_rate; destruct (1000 <=? _); repeat split. Qed.

(** The warning line for a packet of another protocol version. *)
Definition warn_line (v : Z) : list SerialOut :=
  [OText "#[WARN] Bad version: "; OText (print_number v)].

(** The base station after a successful [setup] at [millis() = 0]. *)
Definition base_after_setup : Base :=
  match fst (setup true 0) with Some b => b | None => base_boot end.

(** ** Claims on the base station output *)

(** C2: the boot banner, RF status and CSV header lines of [setup] begin with
    ['#'], but the statistics line that [loop] writes through [stats_print]
    once [STATS_INTERVAL] has elapsed (here at [millis() = 5000], no packet
    received) begins with ['['] ("[STAT] rx=..."): it is neither a marker
    line nor a data record, contrary to the comment of [loop] and to the
    serial format document, which give the statistics line a ['#'] prefix. *)
Theorem stats_line_unmarked :
  map line_first_char (lines (snd (setup true 0)))
    = [Some "#"%char; Some "#"%char; Some "#"%char]
  /\ map line_first_char (lines (snd (loop base_after_setup 5000 None)))
    = [Some "["%char]
  /\ map is_data_line (lines (snd (loop base_after_setup 5000 None))) = [false].
Proof. vm_compute. repeat split. Qed.

(** C3: a received packet whose version differs from [PROTOCOL_VERSION]
    yields the warning line and no data record, and leaves [packets_received],
    [packets_lost] and [last_seq] unchanged; a packet with the right version
    updates the statistics by [stats_update] and yields exactly one data
    record (the periodic statistics line of the same call is not one). *)
Theorem loop_version_gate (b : Base) (now : Z) (p : SensorPacket) :
  wf_packet p = true ->
  let r := loop b now (Some p) in
  (version p <> PROTOCOL_VERSION ->
     packets_received (stats (fst r)) = packets_received (stats b)
     /\ packets_lost (stats (fst r)) = packets_lost (stats b)
     /\ last_seq (stats (fst r)) = last_seq (stats b)
     /\ In (warn_line (version p)) (lines (snd r))
     /\ count_data_lines (snd r) = 0%nat)
  /\ (version p = PROTOCOL_VERSION ->
     packets_received (stats (fst r)) = packets_received (stats_update (stats b) (seq p))
     /\ packets_lost (stats (fst r)) = packets_lost (stats_update (stats b) (seq p))
     /\ last_seq (stats (fst r)) = last_seq (stats_update (stats b) (seq p))
     /\ count_data_lines (snd r) = 1%nat).
Proof.
  intros Hwf r; split; intros Hv; unfold r, loop.
  - apply Z.eqb_neq in Hv; rewrite Hv; cbn [negb].
    destruct (STATS_INTERVAL <=? _) eqn:S; cbn [fst snd stats].
    all: destruct (stats_update_rate_counters (stats b) (u32 now)) as (A & B & C).
    all: repeat split; auto.
    all: cbn; left; reflexivity.
  - apply Z.eqb_eq in Hv; rewrite Hv; cbn [negb].
    destruct (print_csv_line_one_record p Hwf) as (body & E & _ & _ & Cnt).
    destruct (STATS_INTERVAL <=? _) eqn:S; cbn [fst snd stats].
    all: destruct (stats_update_rate_counters (stats_update (stats b) (seq p)) (u32 now))
           as (A & B & C).
    all: repeat split; auto.
    all: rewrite E, count_data_lines_app, <- E, Cnt; reflexivity.
Qed.

(** ** The button debouncer of the remote unit ([button.cpp], [button.h]) *)

Definition DEBOUNCE_MS : Z := 20.

Record Button := mkButton {
  current_state : bool;
  last_reading : bool;
  last_change : Z      (* unsigned long *)
}.

(** [button_init]: [reading] is [digitalRead(BUTTON_PIN) == LOW]. *)
Definition button_init (reading : bool) (now : Z) : Button :=
  {| current_state := false; last_reading := reading; last_change := u32 now |}.

(** [button_update]. *)
Definition button_update (b : Button) (reading : bool) (now : Z) : Button :=
  let now := u32 now in
  let '(lr, lc) :=
    if negb (Bool.eqb reading (last_reading b)) then (reading, now)
    else (last_reading b, last_change b) in
  let cur := if DEBOUNCE_MS <=? u32 (now - lc) then lr else current_state b in
  {| current_state := cur; last_reading := lr; last_change := lc |}.

(** [button_is_pressed]. *)
Definition button_is_pressed (b : Button) : bool := current_state b.

Section Debounce.

(** The observations of the pin: at call [i] ([i = 0] is [button_init]) the
    time elapsed since reset, in ms, and the reading.  [millis()] is that time
    modulo 2^32. *)
Variable obs : nat -> Z * bool.

Fixpoint button_trace (k : nat) : Button :=
  match k with
  | O => button_init (snd (obs O)) (fst (obs O))
  | S k' => button_update (button_trace k') (snd (obs (S k'))) (fst (obs (S k')))
  end.

Hypothesis time_mono : forall i, 0 <= fst (obs i) <= fst (obs (S i)).

Lemma obs_time_le (i k : nat) : (i <= k)%nat -> fst (obs i) <= fst (obs k).
Proof.
  induction 1 as [|k _ IH]; [lia|].
  specialize (time_mono k); lia.
Qed.

Lemma obs_time_nonneg (i : nat) : 0 <= fst (obs i).
Proof. specialize (time_mono i); lia. Qed.

(** [last_change] is the time of the call since which the reading has been
    [last_reading] at every call. *)
Lemma button_trace_inv (k : nat) :
  exists j, (j <= k)%nat /\ last_change (button_trace k) = u32 (fst (obs j))
            /\ forall i, (j <= i <= k)%nat -> snd (obs i) = last_reading (button_trace k).
Proof.
  induction k as [|k (j & Hj & Hc & Hr)].
  - exists O; split; [lia|]; split; [reflexivity|].
    intros i Hi; assert (i = O) by lia; subst i; reflexivity.
  - cbn [button_trace]; unfold button_update.
    destruct (Bool.eqb (snd (obs (S k))) (last_reading (button_trace k))) eqn:E; cbn [negb].
    + exists j; split; [lia|]; split; [exact Hc|].
      intros i Hi; apply Bool.eqb_prop in E.
      destruct (Nat.eq_dec i (S k)) as [->|Hne]; [exact E|].
      apply Hr; lia.
    + exists (S k); split; [lia|]; split; [reflexivity|].
      intros i Hi; assert (i = S k) by lia; subst i; reflexivity.
Qed.

Lemma u32_elapsed (a b : Z) : 0 <= a <= b -> u32 (u32 b - u32 a) <= b - a.
Proof.
  intros H; unfold u32; rewrite <- Zminus_mod.
  apply Z.mod_le; lia.
Qed.

(** C7: [button_is_pressed] changes at call [S k] only to a value that the
    reading has had at every call from some call [j] on, with at least
    [DEBOUNCE_MS] between call [j] and call [S k]. *)
Theorem button_change_debounced (k : nat) :
  button_is_pressed (button_trace (S k)) <> button_is_pressed (button_trace k) ->
  exists j, (j <= S k)%nat
            /\ DEBOUNCE_MS <= fst (obs (S k)) - fst (obs j)
            /\ forall i, (j <= i <= S k)%nat ->
                 snd (obs i) = button_is_pressed (button_trace (S k)).
Proof.
  intros Hch.
  destruct (button_trace_inv (S k)) as (j & Hj & Hc & Hr).
  exists j; split; [exact Hj|].
  unfold button_is_pressed in *.
  remember (button_trace (S k)) as b' eqn:Eb.
  cbn [button_trace] in Eb; unfold button_update in Eb.
  destruct (if negb (Bool.eqb (snd (obs (S k))) (last_reading (button_trace k)))
            then (snd (obs (S k)), u32 (fst (obs (S k))))
            else (last_reading (button_trace k), last_change (button_trace k)))
    as [lr lc] eqn:Elc.
  destruct (DEBOUNCE_MS <=? u32 (u32 (fst (obs (S k))) - lc)) eqn:D.
  - subst b'; cbn [current_state last_reading last_change] in *.
    apply Z.leb_le in D; subst lc.
    split.
    + eapply Z.le_trans; [exact D|]; apply u32_elapsed.
      split; [apply obs_time_nonneg|apply obs_time_le; exact Hj].
    + exact Hr.
  - subst b'; cbn [current_state] in Hch; contradiction Hch; reflexivity.
Qed.

End Debounce.

(** ** The display buffers of the live and replay tabs *)

Definition WINDOW_SECONDS : nat := 10.
Definition SAMPLE_RATE : nat := 30.
Definition MAX_POINTS : nat := WINDOW_SECONDS * SAMPLE_RATE.

(** [a.slice(-n)] of a JavaScript array, for [n > 0]: the elements from index
    [max(a.length - n, 0)] on. *)
Definition js_slice_neg {A} (a : list A) (n : nat) : list A := skipn (List.length a - n) a.

Section Buffers.

(** JavaScript numbers, with the two conversions the tabs apply:
    [x / 1000.0], [x || 0] and [Math.abs(x - y)]. *)
Variable V : Type.
Variable div1000 : V -> V.
Variable or_zero : V -> V.
Variable abs_diff : V -> V -> V.

(** [data.data] of a live ['sample'] message. *)
Record LiveSample := mkLiveSample {
  t_remote_ms : V;
  gx1_dps : V; gy1_dps : V; gz1_dps : V;
  gx2_dps : V; gy2_dps : V; gz2_dps : V
}.

Record LiveBuffer := mkLiveBuffer {
  time : list V;
  gx1 : list V; gy1 : list V; gz1 : list V;
  gx2 : list V; gy2 : list V; gz2 : list V
}.

Definition live_empty : LiveBuffer := mkLiveBuffer [] [] [] [] [] [] [].

(** [onSample] of the live tab ([None] is a message without [data]). *)
Definition onSample (b : LiveBuffer) (data : option LiveSample) : LiveBuffer :=
  match data with
  | None => b
  | Some s =>
      let b1 := {| time := time b ++ [div1000 (t_remote_ms s)];
                   gx1 := gx1 b ++ [or_zero (gx1_dps s)];
                   gy1 := gy1 b ++ [or_zero (gy1_dps s)];
                   gz1 := gz1 b ++ [or_zero (gz1_dps s)];
                   gx2 := gx2 b ++ [or_zero (gx2_dps s)];
                   gy2 := gy2 b ++ [or_zero (gy2_dps s)];
                   gz2 := gz2 b ++ [or_zero (gz2_dps s)] |} in
      if (MAX_POINTS <? List.length (time b1))%nat then
        {| time := js_slice_neg (time b1) MAX_POINTS;
           gx1 := js_slice_neg (gx1 b1) MAX_POINTS;
           gy1 := js_slice_neg (gy1 b1) MAX_POINTS;
           gz1 := js_slice_neg (gz1 b1) MAX_POINTS;
           gx2 := js_slice_neg (gx2 b1) MAX_POINTS;
           gy2 := js_slice_neg (gy2 b1) MAX_POINTS;
           gz2 := js_slice_neg (gz2 b1) MAX_POINTS |}
      else b1
  end.

(** The sample of a ['playback_sample'] message. *)
Record PlaySample := mkPlaySample {
  p_t_remote_ms : V;
  p_g1_mag : V;
  p_g2_mag : V
}.

Record PlayBuffer := mkPlayBuffer {
  ptime : list V;
  g1_mag : list V;
  g2_mag : list V;
  delta : list V
}.

Definition play_empty : PlayBuffer := mkPlayBuffer [] [] [] [].

(** [onPlaybackSample] of the replay tab. *)
Definition onPlaybackSample (b : PlayBuffer) (sample : option PlaySample) : PlayBuffer :=
  match sample with
  | None => b
  | Some s =>
      let g1 := or_zero (p_g1_mag s) in
      let g2 := or_zero (p_g2_mag s) in
      let b1 := {| ptime := ptime b ++ [div1000 (p_t_remote_ms s)];
                   g1_mag := g1_mag b ++ [g1];
                   g2_mag := g2_mag b ++ [g2];
                   delta := delta b ++ [abs_diff g1 g2] |} in
      if (MAX_POINTS <? List.length (ptime b1))%nat then
        {| ptime := js_slice_neg (ptime b1) MAX_POINTS;
           g1_mag := js_slice_neg (g1_mag b1) MAX_POINTS;
           g2_mag := js_slice_neg (g2_mag b1) MAX_POINTS;
           delta := js_slice_neg (delta b1) MAX_POINTS |}
      else b1
  end.

(** The samples actually pushed: the messages that carry one. *)
Definition pushed {A} (msgs : list (option A)) : list A :=
  flat_map (fun m => match m with Some s => [s] | None => [] end) msgs.

(** [a] holds the most recent [MAX_POINTS] elements of [full] (all of them
    when there are fewer), in their order: the dropped ones are the oldest. *)
Definition window_of (full a : list V) : Prop :=
  exists old, full = old ++ a /\ List.length a = Nat.min (List.length full) MAX_POINTS.

Lemma js_slice_neg_length {A} (l : list A) (n : nat) :
  List.length (js_slice_neg l n) = Nat.min (List.length l) n.
Proof. unfold js_slice_neg; rewrite length_skipn; lia. Qed.

(** Pushing one element and trimming as the tabs do keeps the window:
    [all_t] is the history of the array whose length drives the trimming. *)
Lemma slice_push {A B} (all_t : list A) (all_a : list B) (xt : A) (xa : B) :
  List.length all_a = List.length all_t ->
  (if (MAX_POINTS <? List.length (js_slice_neg all_t MAX_POINTS ++ [xt]))%nat
   then js_slice_neg (js_slice_neg all_a MAX_POINTS ++ [xa]) MAX_POINTS
   else js_slice_neg all_a MAX_POINTS ++ [xa])
  = js_slice_neg (all_a ++ [xa]) MAX_POINTS.
Proof.
  intros Hlen.
  rewrite length_app, js_slice_neg_length; cbn [List.length].
  unfold js_slice_neg; rewrite !length_app, length_skipn; cbn [List.length].
  set (n := List.length all_a) in *.
  destruct (Nat.ltb_spec MAX_POINTS (Nat.min (List.length all_t) MAX_POINTS + 1)) as [C|C].
  - assert (Hmp : (MAX_POINTS <= n)%nat) by (unfold MAX_POINTS, WINDOW_SECONDS, SAMPLE_RATE in *; lia).
    replace (n - (n - MAX_POINTS) + 1 - MAX_POINTS)%nat with 1%nat by lia.
    replace (n + 1 - MAX_POINTS)%nat with (1 + (n - MAX_POINTS))%nat by lia.
    rewrite <- skipn_skipn, (skipn_app (n - MAX_POINTS)).
    change (List.length all_a) with n; replace (n - MAX_POINTS - n)%nat with O by lia.
    reflexivity.
  - assert (Hmp : (n < MAX_POINTS)%nat) by (unfold MAX_POINTS, WINDOW_SECONDS, SAMPLE_RATE in *; lia).
    replace (n - MAX_POINTS)%nat with O by lia.
    replace (n + 1 - MAX_POINTS)%nat with O by lia.
    reflexivity.
Qed.

Lemma slice_push_true {A B} (all_t : list A) (all_a : list B) (xt : A) (xa : B) :
  (MAX_POINTS <? List.length (js_slice_neg all_t MAX_POINTS ++ [xt]))%nat = true ->
  List.length all_a = List.length all_t ->
  js_slice_neg (js_slice_neg all_a MAX_POINTS ++ [xa]) MAX_POINTS
  = js_slice_neg (all_a ++ [xa]) MAX_POINTS.
Proof. intros C Hl; rewrite <- (slice_push all_t all_a xt xa Hl), C; reflexivity. Qed.

Lemma slice_push_false {A B} (all_t : list A) (all_a : list B) (xt : A) (xa : B) :
  (MAX_POINTS <? List.length (js_slice_neg all_t MAX_POINTS ++ [xt]))%nat = false ->
  List.length all_a = List.length all_t ->
  js_slice_neg all_a MAX_POINTS ++ [xa] = js_slice_neg (all_a ++ [xa]) MAX_POINTS.
Proof. intros C Hl; rewrite <- (slice_push all_t all_a xt xa Hl), C; reflexivity. Qed.

Lemma window_of_slice (l : list V) : window_of l (js_slice_neg l MAX_POINTS).
Proof.
  exists (firstn (List.length l - MAX_POINTS) l); split.
  - unfold js_slice_neg; symmetry; apply firstn_skipn.
  - apply js_slice_neg_length.
Qed.

Definition live_inv (vs : list LiveSample) (b : LiveBuffer) : Prop :=
  time b = js_slice_neg (map (fun s => div1000 (t_remote_ms s)) vs) MAX_POINTS
  /\ gx1 b = js_slice_neg (map (fun s => or_zero (gx1_dps s)) vs) MAX_POINTS
  /\ gy1 b = js_slice_neg (map (fun s => or_zero (gy1_dps s)) vs) MAX_POINTS
  /\ gz1 b = js_slice_neg (map (fun s => or_zero (gz1_dps s)) vs) MAX_POINTS
  /\ gx2 b = js_slice_neg (map (fun s => or_zero (gx2_dps s)) vs) MAX_POINTS
  /\ gy2 b = js_slice_neg (map (fun s => or_zero (gy2_dps s)) vs) MAX_POINTS
  /\ gz2 b = js_slice_neg (map (fun s => or_zero (gz2_dps s)) vs) MAX_POINTS.

Lemma onSample_inv (vs : list LiveSample) (b : LiveBuffer) (m : option LiveSample) :
  live_inv vs b -> live_inv (vs ++ pushed [m]) (onSample b m).
Proof.
  intros (Ht & H1 & H2 & H3 & H4 & H5 & H6).
  destruct m as [s|]; cbn [pushed flat_map]; [|rewrite app_nil_r; repeat split; assumption].
  rewrite app_nil_r; unfold onSample, live_inv.
  rewrite Ht, H1, H2, H3, H4, H5, H6, !map_app; cbn [time gx1 gy1 gz1 gx2 gy2 gz2 map].
  destruct (MAX_POINTS <? _)%nat eqn:C; cbn [time gx1 gy1 gz1 gx2 gy2 gz2].
  - repeat split; (eapply slice_push_true; [exact C | rewrite !length_map; reflexivity]).
  - repeat split; (eapply slice_push_false; [exact C | rewrite !length_map; reflexivity]).
Qed.

Definition play_inv (vs : list PlaySample) (b : PlayBuffer) : Prop :=
  ptime b = js_slice_neg (map (fun s => div1000 (p_t_remote_ms s)) vs) MAX_POINTS
  /\ g1_mag b = js_slice_neg (map (fun s => or_zero (p_g1_mag s)) vs) MAX_POINTS
  /\ g2_mag b = js_slice_neg (map (fun s => or_zero (p_g2_mag s)) vs) MAX_POINTS
  /\ delta b = js_slice_neg (map (fun s => abs_diff (or_zero (p_g1_mag s))
                                                   (or_zero (p_g2_mag s))) vs) MAX_POINTS.

Lemma onPlaybackSample_inv (vs : list PlaySample) (b : PlayBuffer) (m : option PlaySample) :
  play_inv vs b -> play_inv (vs ++ pushed [m]) (onPlaybackSample b m).
Proof.
  intros (Ht & H1 & H2 & H3).
  destruct m as [s|]; cbn [pushed flat_map]; [|rewrite app_nil_r; repeat split; assumption].
  rewrite app_nil_r; unfold onPlaybackSample, play_inv.
  rewrite Ht, H1, H2, H3, !map_app; cbn [ptime g1_mag g2_mag delta map].
  destruct (MAX_POINTS <? _)%nat eqn:C; cbn [ptime g1_mag g2_mag delta].
  - repeat split; (eapply slice_push_true; [exact C | rewrite !length_map; reflexivity]).
  - repeat split; (eapply slice_push_false; [exact C | rewrite !length_map; reflexivity]).
Qed.


Lemma pushed_app {A} (l1 l2 : list (option A)) : pushed (l1 ++ l2) = pushed l1 ++ pushed l2.
Proof. unfold pushed; apply flat_map_app. Qed.

Lemma live_run_inv (msgs : list (option LiveSample)) :
  live_inv (pushed msgs) (fold_left onSample msgs live_empty).
Proof.
  induction msgs as [|m msgs IH] using rev_ind; [repeat split|].
  rewrite fold_left_app, pushed_app; cbn [fold_left]; apply onSample_inv, IH.
Qed.

Lemma play_run_inv (msgs : list (option PlaySample)) :
  play_inv (pushed msgs) (fold_left onPlaybackSample msgs play_empty).
Proof.
  induction msgs as [|m msgs IH] using rev_ind; [repeat split|].
  rewrite fold_left_app, pushed_app; cbn [fold_left]; apply onPlaybackSample_inv, IH.
Qed.

(** C6: after any sequence of ['sample'] messages from the empty buffer of
    the live tab, and after any sequence of playback samples from the empty
    buffer of the replay tab, every array of the buffer holds the most recent
    [MAX_POINTS] pushed values (all of them while there are fewer) in their
    order, the older ones dropped; so the time array has at most [MAX_POINTS]
    entries and every per-channel array has its length. *)
Theorem display_buffer_fifo (msgs : list (option LiveSample)) (pmsgs : list (option PlaySample)) :
  let b := fold_left onSample msgs live_empty in
  let vs := pushed msgs in
  let pb := fold_left onPlaybackSample pmsgs play_empty in
  let pvs := pushed pmsgs in
  ((List.length (time b) <= MAX_POINTS)%nat
   /\ window_of (map (fun s => div1000 (t_remote_ms s)) vs) (time b)
   /\ window_of (map (fun s => or_zero (gx1_dps s)) vs) (gx1 b)
   /\ window_of (map (fun s => or_zero (gy1_dps s)) vs) (gy1 b)
   /\ window_of (map (fun s => or_zero (gz1_dps s)) vs) (gz1 b)
   /\ window_of (map (fun s => or_zero (gx2_dps s)) vs) (gx2 b)
   /\ window_of (map (fun s => or_zero (gy2_dps s)) vs) (gy2 b)
   /\ window_of (map (fun s => or_zero (gz2_dps s)) vs) (gz2 b)
   /\ Forall (fun a => List.length a = List.length (time b))
             [gx1 b; gy1 b; gz1 b; gx2 b; gy2 b; gz2 b])
  /\ ((List.length (ptime pb) <= MAX_POINTS)%nat
   /\ window_of (map (fun s => div1000 (p_t_remote_ms s)) pvs) (ptime pb)
   /\ window_of (map (fun s => or_zero (p_g1_mag s)) pvs) (g1_mag pb)
   /\ window_of (map (fun s => or_zero (p_g2_mag s)) pvs) (g2_mag pb)
   /\ window_of (map (fun s => abs_diff (or_zero (p_g1_mag s)) (or_zero (p_g2_mag s))) pvs)
                 (delta pb)
   /\ Forall (fun a => List.length a = List.length (ptime pb))
             [g1_mag pb; g2_mag pb; delta pb]).
Proof.
  intros b vs pb pvs.
  destruct (live_run_inv msgs) as (Ht & H1 & H2 & H3 & H4 & H5 & H6).
  destruct (play_run_inv pmsgs) as (Pt & P1 & P2 & P3).
  fold b vs in Ht, H1, H2, H3, H4, H5, H6.
  fold pb pvs in Pt, P1, P2, P3.
  split; [rewrite Ht, H1, H2, H3, H4, H5, H6 | rewrite Pt, P1, P2, P3].
  all: repeat match goal with |- _ /\ _ => split end.
  all: try apply window_of_slice.
  all: try (rewrite js_slice_neg_length; lia).
  all: repeat constructor; rewrite !js_slice_neg_length, !length_map; reflexivity.
Qed.

End Buffers.

(** ** Message fan-out of the WebSocket manager ([websocket.js]) *)

Module WebSocket.

(** A handler is a function object, known by its identity; what it does on
    a message is [Returns] or [Throws].  The handlers that the tabs register
    do not register or unregister handlers themselves. *)
Inductive Outcome := Returns | Throws.

(** What the page can observe: the handlers called, in order, and the
    handlers whose error was written to [console.error]. *)
Record World := mkWorld { invoked : list nat; console_errors : list nat }.

(** A computation of the page: it ends normally with a value or with an
    exception that propagates. *)
Inductive Res (A : Type) := Ok (a : A) | Exn.
Arguments Ok {A} a.
Arguments Exn {A}.

Definition M (A : Type) := World -> Res A * World.

Definition ret {A} (a : A) : M A := fun w => (Ok a, w).

Definition bind {A B} (m : M A) (k : A -> M B) : M B :=
  fun w => match m w with
           | (Ok a, w') => k a w'
           | (Exn, w') => (Exn, w')
           end.

(** [try { m } catch (error) { c }]. *)
Definition try_catch {A} (m : M A) (c : M A) : M A :=
  fun w => match m w with
           | (Ok a, w') => (Ok a, w')
           | (Exn, w') => c w'
           end.

(** [Array.prototype.forEach] over an array that the callback leaves alone;
    an exception of the callback leaves the loop. *)
Fixpoint forEach {A} (l : list A) (f : A -> M unit) : M unit :=
  match l with
  | [] => ret tt
  | x :: l' => bind (f x) (fun _ => forEach l' f)
  end.

Section Handlers.

Variable Data : Type.
Variable behaviour : nat -> Data -> Outcome.

Definition call_handler (h : nat) (data : Data) : M unit :=
  fun w =>
    let w' := mkWorld (invoked w ++ [h]) (console_errors w) in
    match behaviour h data with
    | Returns => (Ok tt, w')
    | Throws => (Exn, w')
    end.

Definition console_error (h : nat) : M unit :=
  fun w => (Ok tt, mkWorld (invoked w) (console_errors w ++ [h])).

(** [handleMessage]: [messageHandlers] is [handlers]. *)
Definition handleMessage (handlers : list nat) (data : Data) : M unit :=
  forEach handlers (fun h => try_catch (call_handler h data) (console_error h)).

Definition throws (data : Data) (h : nat) : bool :=
  match behaviour h data with Throws => true | Returns => false end.

End Handlers.

(** [Array.prototype.indexOf], with [-1] when absent. *)
Fixpoint indexOf (l : list nat) (h : nat) : Z :=
  match l with
  | [] => -1
  | x :: l' => if Nat.eqb x h then 0 else
                 let i := indexOf l' h in if i =? -1 then -1 else i + 1
  end.

(** [a.splice(i, 1)] for [0 <= i]. *)
Definition splice1 (l : list nat) (i : Z) : list nat :=
  firstn (Z.to_nat i) l ++ skipn (Z.to_nat i + 1) l.

(** The function returned by [onMessage(handler)]. *)
Definition unregister (handler : nat) (handlers : list nat) : list nat :=
  let index := indexOf handlers handler in
  if -1 <? index then splice1 handlers index else handlers.

(** [onMessage]: the new [messageHandlers] and the unregister function. *)
Definition onMessage (handlers : list nat) (handler : nat) :
  list nat * (list nat -> list nat) :=
  (handlers ++ [handler], unregister handler).

Example fanout_sample :
  handleMessage unit (fun h _ => if Nat.eqb h 2 then Throws else Returns)
    [1; 2; 3]%nat tt (mkWorld [] [])
  = (Ok tt, mkWorld [1; 2; 3]%nat [2%nat]).
Proof. reflexivity. Qed.

Example unregister_sample :
  let '(hs, unsub) := onMessage [1; 2; 3]%nat 4 in
  unsub (unsub (hs ++ [5%nat])) = [1; 2; 3; 5]%nat.
Proof. reflexivity. Qed.


Lemma handleMessage_effect (Data : Type) (behaviour : nat -> Data -> Outcome)
      (hs : list nat) (data : Data) :
  forall w, handleMessage Data behaviour hs data w
            = (Ok tt, mkWorld (invoked w ++ hs)
                              (console_errors w ++ filter (throws Data behaviour data) hs)).
Proof.
  induction hs as [|h hs IH]; intros w.
  - destruct w; cbn; rewrite !app_nil_r; reflexivity.
  - unfold handleMessage in *; cbn [forEach filter]; unfold bind, try_catch, call_handler.
    destruct (behaviour h data) eqn:B.
    + assert (T : throws Data behaviour data h = false) by (unfold throws; rewrite B; reflexivity).
      rewrite T, IH; cbn [invoked console_errors]; rewrite <- !app_assoc; reflexivity.
    + assert (T : throws Data behaviour data h = true) by (unfold throws; rewrite B; reflexivity).
      unfold console_error; rewrite T, IH; cbn [invoked console_errors].
      rewrite <- !app_assoc; reflexivity.
Qed.

Lemma indexOf_found (l : list nat) (h : nat) :
  In h l -> exists a b, l = a ++ h :: b /\ ~ In h a /\ indexOf l h = Z.of_nat (List.length a).
Proof.
  induction l as [|x l IH]; intros Hin; [destruct Hin|].
  cbn [indexOf]; destruct (Nat.eqb_spec x h) as [->|Hne].
  - exists [], l; repeat split; auto.
  - destruct Hin as [->|Hin]; [contradiction|].
    destruct (IH Hin) as (a & b & -> & Ha & Hi).
    exists (x :: a), b; repeat split.
    + intros [->|H]; [apply Hne; reflexivity | contradiction].
    + rewrite Hi; cbn [List.length].
      destruct (Z.eqb_spec (Z.of_nat (List.length a)) (-1)); lia.
Qed.

Lemma indexOf_absent (l : list nat) (h : nat) : ~ In h l -> indexOf l h = -1.
Proof.
  induction l as [|x l IH]; intros Hin; [reflexivity|].
  cbn [indexOf]; destruct (Nat.eqb_spec x h) as [->|Hne].
  - exfalso; apply Hin; left; reflexivity.
  - rewrite IH by (intros H; apply Hin; right; exact H); reflexivity.
Qed.

Lemma splice1_middle (a b : list nat) (h : nat) :
  splice1 (a ++ h :: b) (Z.of_nat (List.length a)) = a ++ b.
Proof.
  unfold splice1; rewrite Nat2Z.id, firstn_app, Nat.sub_diag, firstn_all, skipn_app.
  rewrite skipn_all2 by lia.
  replace (List.length a + 1 - List.length a)%nat with 1%nat by lia.
  rewrite app_nil_r; reflexivity.
Qed.

(** C9: [handleMessage] calls every registered handler, in order, whatever
    each of them does; a handler that throws only adds a [console.error],
    and no exception leaves [handleMessage]. [onMessage] appends the handler,
    and the function it returns removes one entry for that handler (the
    first), leaving the others in place and in order, and changes nothing
    when the handler is no longer registered. *)
Theorem fanout_isolated (Data : Type) (behaviour : nat -> Data -> Outcome)
        (hs : list nat) (data : Data) (w : World) (h : nat) (hs' : list nat) :
  handleMessage Data behaviour hs data w
    = (Ok tt, mkWorld (invoked w ++ hs)
                      (console_errors w ++ filter (throws Data behaviour data) hs))
  /\ fst (onMessage hs h) = hs ++ [h]
  /\ (In h hs' -> exists a b, hs' = a ++ h :: b /\ ~ In h a
                             /\ snd (onMessage hs h) hs' = a ++ b)
  /\ (~ In h hs' -> snd (onMessage hs h) hs' = hs').
Proof.
  split; [apply handleMessage_effect|split; [reflexivity|split]].
  - intros Hin; destruct (indexOf_found hs' h Hin) as (a & b & E & Ha & Hi).
    exists a, b; repeat split; auto.
    cbn [snd onMessage]; unfold unregister; rewrite Hi.
    destruct (Z.ltb_spec (-1) (Z.of_nat (List.length a))); [|lia].
    rewrite E; apply splice1_middle.
  - intros Hin; cbn [snd onMessage]; unfold unregister; rewrite indexOf_absent by exact Hin.
    reflexivity.
Qed.

End WebSocket.

(** ** The wire layout of [SensorPacket] ([common/packet.h]) *)

Module PacketLayout.

(** The fixed-width types of the fields; [int16_t] and the [uintN_t] types
    have exactly N bits, and a [char] has 8. *)
Inductive CType := U8 | U16 | U32 | I16.

Definition sizeof (t : CType) : Z :=
  match t with U8 => 1 | U16 => 2 | U32 => 4 | I16 => 2 end.

(** The members of the [__attribute__((packed))] struct, in declaration order. *)
Definition SensorPacket_fields : list (string * CType) :=
  [("version", U8); ("seq", U16); ("timestamp", U32); ("button", U8);
   ("mpu1_ax", I16); ("mpu1_ay", I16); ("mpu1_az", I16);
   ("mpu1_gx", I16); ("mpu1_gy", I16); ("mpu1_gz", I16);
   ("mpu2_ax", I16); ("mpu2_ay", I16); ("mpu2_az", I16);
   ("mpu2_gx", I16); ("mpu2_gy", I16); ("mpu2_gz", I16)].

(** A packed struct aligns every member to 1: each member starts where the
    previous one ends, and no padding follows the last one. *)
Fixpoint packed_offsets (off : Z) (fs : list (string * CType)) : list (string * Z) :=
  match fs with
  | [] => []
  | (n, t) :: fs' => (n, off) :: packed_offsets (off + sizeof t) fs'
  end.

Definition packed_sizeof (fs : list (string * CType)) : Z :=
  fold_right (fun f acc => sizeof (snd f) + acc) 0 fs.

(** The byte offsets the comments of [packet.h] give. *)
Definition documented_offsets : list (string * Z) :=
  [("version", 0); ("seq", 1); ("timestamp", 3); ("button", 7);
   ("mpu1_ax", 8); ("mpu1_ay", 10); ("mpu1_az", 12);
   ("mpu1_gx", 14); ("mpu1_gy", 16); ("mpu1_gz", 18);
   ("mpu2_ax", 20); ("mpu2_ay", 22); ("mpu2_az", 24);
   ("mpu2_gx", 26); ("mpu2_gy", 28); ("mpu2_gz", 30)].

(** C10: the packed [SensorPacket] occupies [PACKET_SIZE] = 32 bytes (the
    [static_assert] holds) with the members at the documented offsets:
    version at 0, seq at 1-2, timestamp at 3-6, button at 7, and the twelve
    [int16_t] values at 8, 10, ..., 30. *)
Theorem sensor_packet_layout :
  packed_sizeof SensorPacket_fields = PACKET_SIZE
  /\ packed_offsets 0 SensorPacket_fields = documented_offsets
  /\ List.length (filter (fun f => match snd f with I16 => true | _ => false end)
                         SensorPacket_fields) = 12%nat.
Proof. repeat split. Qed.

End PacketLayout.

(** ** Witnesses: the theorems with hypotheses applied to concrete inputs *)

Definition sample_packet : SensorPacket :=
  mkPacket 1 1234 100500 0 16384 (-200) 16000 50 (-30) 10 16200 (-150) 16100 45 (-25) 8.

Definition bad_version_packet : SensorPacket :=
  mkPacket 2 1235 100510 0 16380 (-205) 16005 48 (-32) 12 16195 (-148) 16098 43 (-27) 9.

Lemma print_csv_line_record_witness :
  wf_packet sample_packet = true
  /\ exists body, lines (print_csv_line sample_packet) = [body].
Proof.
  split; [reflexivity|].
  destruct (print_csv_line_record sample_packet eq_refl) as (body & txt & _ & _ & L & _).
  exists body; exact L.
Defined.

Lemma loop_version_gate_witness :
  wf_packet sample_packet = true /\ wf_packet bad_version_packet = true
  /\ count_data_lines (snd (loop base_after_setup 10 (Some sample_packet))) = 1%nat
  /\ count_data_lines (snd (loop base_after_setup 10 (Some bad_version_packet))) = 0%nat.
Proof.
  split; [reflexivity|]; split; [reflexivity|]; split.
  - destruct (loop_version_gate base_after_setup 10 sample_packet eq_refl) as [_ Hm].
    apply Hm; reflexivity.
  - destruct (loop_version_gate base_after_setup 10 bad_version_packet eq_refl) as [Hb _].
    apply Hb; discriminate.
Defined.

(** A press: the pin reads pressed from the call at 10 ms on, calls every 10 ms. *)
Definition press_obs (i : nat) : Z * bool := (Z.of_nat i * 10, (1 <=? i)%nat).

Lemma button_change_debounced_witness :
  button_is_pressed (button_trace press_obs 3) <> button_is_pressed (button_trace press_obs 2)
  /\ exists j, (j <= 3)%nat /\ DEBOUNCE_MS <= fst (press_obs 3) - fst (press_obs j).
Proof.
  assert (Hm : forall i, 0 <= fst (press_obs i) <= fst (press_obs (S i))).
  { intros i; cbn [press_obs fst]; lia. }
  assert (Hch : button_is_pressed (button_trace press_obs 3)
                <> button_is_pressed (button_trace press_obs 2))
    by (vm_compute; discriminate).
  split; [exact Hch|].
  destruct (button_change_debounced press_obs Hm 2 Hch) as (j & Hj & Hd & _).
  exists j; split; [exact Hj | exact Hd].
Defined.

Lemma fanout_isolated_witness :
  WebSocket.invoked
    (snd (WebSocket.handleMessage unit (fun h _ => if Nat.eqb h 2 then WebSocket.Throws
                                                  else WebSocket.Returns)
                                  [1; 2; 3]%nat tt (WebSocket.mkWorld [] [])))
  = [1; 2; 3]%nat
  /\ snd (WebSocket.onMessage [1; 2; 3]%nat 3) [1; 3; 2; 3]%nat = [1; 2; 3]%nat.
Proof.
  destruct (WebSocket.fanout_isolated unit
              (fun h _ => if Nat.eqb h 2 then WebSocket.Throws else WebSocket.Returns)
              [1; 2; 3]%nat tt (WebSocket.mkWorld [] []) 3 [1; 3; 2; 3]%nat)
    as (E & _ & Hin & _).
  split; [rewrite E; reflexivity|].
  destruct (Hin ltac:(right; left; reflexivity)) as (a & b & Ea & Na & U).
  rewrite U.
  destruct a as [|x [|y a]]; cbn in Ea; try discriminate.
  - injection Ea as Ex Eb; subst x b; reflexivity.
  - injection Ea as Ex Ey _; subst y; exfalso; apply Na; right; left; reflexivity.
Defined.

(** * Further properties of the firmware and of the front end *)

(** ** The radio payload ([rf_read] into the packed [SensorPacket])

    [loop] reads the 32 payload bytes with [rf_read(&packet, sizeof(SensorPacket))],
    which copies them over the packed struct: each member is read from its
    offset, little-endian (the ATmega328P is little-endian), and an [int16_t]
    is the two's complement reading of its two bytes.  The remote writes
    [&packet] with [rf_send], so the payload is the struct's own bytes,
    [encode_packet]. *)

Definition rd_u8 (bs : list Z) (off : nat) : Z := nth off bs 0.
Definition rd_u16 (bs : list Z) (off : nat) : Z := rd_u8 bs off + 256 * rd_u8 bs (S off).
Definition rd_u32 (bs : list Z) (off : nat) : Z := rd_u16 bs off + 65536 * rd_u16 bs (off + 2).
Definition to_int16 (u : Z) : Z := if u <? 32768 then u else u - 65536.
Definition rd_i16 (bs : list Z) (off : nat) : Z := to_int16 (rd_u16 bs off).

(** The packet that [rf_read] leaves in [packet], at the offsets of
    [PacketLayout.documented_offsets]. *)
Definition decode_packet (bs : list Z) : SensorPacket :=
  mkPacket (rd_u8 bs 0) (rd_u16 bs 1) (rd_u32 bs 3) (rd_u8 bs 7)
           (rd_i16 bs 8) (rd_i16 bs 10) (rd_i16 bs 12)
           (rd_i16 bs 14) (rd_i16 bs 16) (rd_i16 bs 18)
           (rd_i16 bs 20) (rd_i16 bs 22) (rd_i16 bs 24)
           (rd_i16 bs 26) (rd_i16 bs 28) (rd_i16 bs 30).

Definition wr_u8 (x : Z) : list Z := [x].
Definition wr_u16 (x : Z) : list Z := [x mod 256; x / 256].
Definition wr_u32 (x : Z) : list Z := wr_u16 (x mod 65536) ++ wr_u16 (x / 65536).
Definition wr_i16 (x : Z) : list Z := wr_u16 (u16 x).

(** The 32 bytes of a packed [SensorPacket] in memory. *)
Definition encode_packet (p : SensorPacket) : list Z :=
  wr_u8 (version p) ++ wr_u16 (seq p) ++ wr_u32 (timestamp p) ++ wr_u8 (button p)
  ++ wr_i16 (mpu1_ax p) ++ wr_i16 (mpu1_ay p) ++ wr_i16 (mpu1_az p)
  ++ wr_i16 (mpu1_gx p) ++ wr_i16 (mpu1_gy p) ++ wr_i16 (mpu1_gz p)
  ++ wr_i16 (mpu2_ax p) ++ wr_i16 (mpu2_ay p) ++ wr_i16 (mpu2_az p)
  ++ wr_i16 (mpu2_gx p) ++ wr_i16 (mpu2_gy p) ++ wr_i16 (mpu2_gz p).

Definition is_byte (b : Z) : Prop := 0 <= b < 256.

Lemma byte_lo (a b : Z) : is_byte a -> (a + 256 * b) mod 256 = a.
Proof.
  intros Ha; symmetry; apply (Z.mod_unique _ _ b); [left; exact Ha | lia].
Qed.

Lemma byte_hi (a b : Z) : is_byte a -> (a + 256 * b) / 256 = b.
Proof.
  intros Ha; symmetry; apply (Z.div_unique _ _ _ a); [left; exact Ha | lia].
Qed.

Lemma half_lo (a b : Z) : 0 <= a < 65536 -> (a + 65536 * b) mod 65536 = a.
Proof.
  intros Ha; symmetry; apply (Z.mod_unique _ _ b); [left; exact Ha | lia].
Qed.

Lemma half_hi (a b : Z) : 0 <= a < 65536 -> (a + 65536 * b) / 65536 = b.
Proof.
  intros Ha; symmetry; apply (Z.div_unique _ _ _ a); [left; exact Ha | lia].
Qed.

Lemma split_byte (x : Z) : x mod 256 + 256 * (x / 256) = x.
Proof. pose proof (Z.div_mod x 256); lia. Qed.

Lemma split_half (x : Z) : x mod 65536 + 65536 * (x / 65536) = x.
Proof. pose proof (Z.div_mod x 65536); lia. Qed.

Lemma to_int16_u16 (x : Z) : in_int16 x = true -> to_int16 (u16 x) = x.
Proof.
  unfold in_int16, to_int16, u16; intros H; apply andb_prop in H.
  destruct H as [H1 H2]; apply Z.leb_le in H1; apply Z.ltb_lt in H2.
  destruct (Z.ltb_spec x 0).
  - replace (x mod 65536) with (x + 65536)
      by (apply (Z.mod_unique _ _ (-1)); lia).
    destruct (Z.ltb_spec (x + 65536) 32768); lia.
  - rewrite Z.mod_small by lia; destruct (Z.ltb_spec x 32768); lia.
Qed.

Lemma u16_to_int16 (u : Z) : 0 <= u < 65536 -> u16 (to_int16 u) = u.
Proof.
  intros H; unfold to_int16, u16; destruct (Z.ltb_spec u 32768).
  - apply Z.mod_small; lia.
  - symmetry; apply (Z.mod_unique _ _ (-1)); lia.
Qed.

Lemma in_int16_to_int16 (u : Z) : 0 <= u < 65536 -> in_int16 (to_int16 u) = true.
Proof.
  intros H; unfold in_int16, to_int16; destruct (Z.ltb_spec u 32768);
  apply andb_true_intro; split; (apply Z.leb_le || apply Z.ltb_lt); lia.
Qed.

Lemma rd_u8_byte (bs : list Z) (off : nat) : Forall is_byte bs -> is_byte (rd_u8 bs off).
Proof.
  intros H; unfold rd_u8; destruct (Nat.lt_ge_cases off (List.length bs)) as [L|L].
  - rewrite Forall_forall in H; apply H, nth_In, L.
  - rewrite nth_overflow by exact L; unfold is_byte; lia.
Qed.

Lemma rd_u16_range (bs : list Z) (off : nat) : Forall is_byte bs -> 0 <= rd_u16 bs off < 65536.
Proof.
  intros H; pose proof (rd_u8_byte bs off H); pose proof (rd_u8_byte bs (S off) H).
  unfold rd_u16, is_byte in *; lia.
Qed.

Lemma rd_u32_range (bs : list Z) (off : nat) : Forall is_byte bs -> 0 <= rd_u32 bs off < 4294967296.
Proof.
  intros H; pose proof (rd_u16_range bs off H); pose proof (rd_u16_range bs (off + 2) H).
  unfold rd_u32 in *; lia.
Qed.

Lemma decode_packet_wf (bs : list Z) : Forall is_byte bs -> wf_packet (decode_packet bs) = true.
Proof.
  intros H.
  pose proof (rd_u8_byte bs 0 H); pose proof (rd_u8_byte bs 7 H).
  pose proof (rd_u16_range bs 1 H); pose proof (rd_u32_range bs 3 H).
  unfold wf_packet, is_byte in *; cbn [version seq timestamp button
    mpu1_ax mpu1_ay mpu1_az mpu1_gx mpu1_gy mpu1_gz
    mpu2_ax mpu2_ay mpu2_az mpu2_gx mpu2_gy mpu2_gz decode_packet].
  cbn [forallb]; unfold rd_i16; rewrite !in_int16_to_int16 by (apply rd_u16_range, H).
  cbn [andb]; rewrite !andb_true_r.
  repeat (apply andb_true_intro; split); (apply Z.leb_le || apply Z.ltb_lt); lia.
Qed.

Lemma wf_packet_ranges (p : SensorPacket) :
  wf_packet p = true ->
  is_byte (version p) /\ 0 <= seq p < 65536 /\ 0 <= timestamp p < 4294967296
  /\ is_byte (button p)
  /\ Forall (fun x => in_int16 x = true)
       [mpu1_ax p; mpu1_ay p; mpu1_az p; mpu1_gx p; mpu1_gy p; mpu1_gz p;
        mpu2_ax p; mpu2_ay p; mpu2_az p; mpu2_gx p; mpu2_gy p; mpu2_gz p].
Proof.
  unfold wf_packet, is_byte; intros H; repeat rewrite andb_true_iff in H.
  destruct H as [[[[[[[[H0 H1] H2] H3] H4] H5] H6] H7] H8].
  apply Z.leb_le in H0, H2, H4, H6; apply Z.ltb_lt in H1, H3, H5, H7.
  repeat split; try lia.
  apply Forall_forall; intros x Hx; rewrite forallb_forall in H8; apply H8, Hx.
Qed.

Ltac byte_arith :=
  unfold is_byte in *;
  repeat match goal with
         | |- context [(?a + 65536 * ?b) mod 65536] => rewrite (half_lo a b) by lia
         | |- context [(?a + 65536 * ?b) / 65536] => rewrite (half_hi a b) by lia
         | |- context [u16 (to_int16 ?u)] => rewrite (u16_to_int16 u) by lia
         | |- context [(?a + 256 * ?b) mod 256] => rewrite (byte_lo a b) by (unfold is_byte; lia)
         | |- context [(?a + 256 * ?b) / 256] => rewrite (byte_hi a b) by (unfold is_byte; lia)
         end.

Lemma decode_encode_byte_ranges (p : SensorPacket) :
  wf_packet p = true -> Forall is_byte (encode_packet p).
Proof.
  intros Hwf; destruct (wf_packet_ranges p Hwf) as (H0 & H1 & H2 & H3 & H4).
  destruct p as [v s t bt a1 a2 a3 a4 a5 a6 a7 a8 a9 a10 a11 a12];
    cbn [version seq timestamp button] in *.
  assert (B : forall x, is_byte (x mod 256)) by (intros x; apply Z.mod_pos_bound; lia).
  assert (B16 : forall x, 0 <= x < 65536 -> is_byte (x / 256)).
  { intros x Hx; unfold is_byte; split; [apply Z.div_pos; lia|].
    apply Z.div_lt_upper_bound; lia. }
  assert (U : forall x, 0 <= u16 x < 65536) by apply u16_range.
  assert (T1 : 0 <= t mod 65536 < 65536) by (apply Z.mod_pos_bound; lia).
  assert (T2 : 0 <= t / 65536 < 65536).
  { split; [apply Z.div_pos; lia|]; apply Z.div_lt_upper_bound; lia. }
  unfold encode_packet, wr_u8, wr_u16, wr_u32, wr_i16; cbn [app].
  repeat (apply Forall_cons; [auto|]); apply Forall_nil.
Qed.

(** The bytes of a packet with in-range fields are 32 bytes, and [rf_read]
    reading them back yields the same packet. *)
Theorem decode_encode_packet (p : SensorPacket) :
  wf_packet p = true ->
  List.length (encode_packet p) = Z.to_nat PACKET_SIZE
  /\ Forall is_byte (encode_packet p)
  /\ decode_packet (encode_packet p) = p.
Proof.
  intros Hwf; split; [reflexivity|]; split; [apply decode_encode_byte_ranges, Hwf|].
  destruct (wf_packet_ranges p Hwf) as (H0 & H1 & H2 & H3 & H4).
  destruct p as [v s t bt a1 a2 a3 a4 a5 a6 a7 a8 a9 a10 a11 a12];
    cbn [version seq timestamp button mpu1_ax mpu1_ay mpu1_az mpu1_gx mpu1_gy mpu1_gz
         mpu2_ax mpu2_ay mpu2_az mpu2_gx mpu2_gy mpu2_gz] in *.
  repeat match goal with H : Forall _ (_ :: _) |- _ => inversion_clear H end.
  unfold decode_packet, encode_packet, rd_i16, rd_u32, rd_u16, rd_u8,
         wr_u32, wr_i16, wr_u8, wr_u16.
  cbn [app nth Nat.add version seq timestamp button mpu1_ax mpu1_ay mpu1_az mpu1_gx
       mpu1_gy mpu1_gz mpu2_ax mpu2_ay mpu2_az mpu2_gx mpu2_gy mpu2_gz].
  rewrite !split_byte, !split_half, !to_int16_u16 by assumption.
  reflexivity.
Qed.

(** Whatever 32 bytes the radio delivers, [rf_read] leaves in [packet] a
    packet whose fields are in range, and the packet's bytes are exactly
    the payload. *)
Theorem decode_payload (bs : list Z) :
  List.length bs = Z.to_nat PACKET_SIZE -> Forall is_byte bs ->
  wf_packet (decode_packet bs) = true /\ encode_packet (decode_packet bs) = bs.
Proof.
  intros Hl Hb; split; [apply decode_packet_wf, Hb|].
  do 32 (destruct bs as [|? bs]; [discriminate|]).
  destruct bs; [|discriminate].
  repeat match goal with H : Forall _ (_ :: _) |- _ => inversion_clear H end.
  unfold decode_packet, encode_packet, rd_i16, rd_u32, rd_u16, rd_u8,
         wr_u32, wr_i16, wr_u8, wr_u16.
  cbn [app nth Nat.add version seq timestamp button mpu1_ax mpu1_ay mpu1_az mpu1_gx
       mpu1_gy mpu1_gz mpu2_ax mpu2_ay mpu2_az mpu2_gx mpu2_gy mpu2_gz].
  byte_arith.
  reflexivity.
Qed.

(** What one call of [loop] writes for a received packet: the packet's own
    line, then possibly the statistics line. *)
Lemma loop_output_packet (b : Base) (now : Z) (p : SensorPacket) :
  exists out2,
    snd (loop b now (Some p))
      = (if negb (version p =? PROTOCOL_VERSION)
         then ser_str "#[WARN] Bad version: " ++ ser_uint (version p) ++ [OEol]
         else print_csv_line p) ++ out2
    /\ count_data_lines out2 = 0%nat.
Proof.
  unfold loop; destruct (negb (version p =? PROTOCOL_VERSION));
    destruct (STATS_INTERVAL <=? _); cbn [snd]; eexists; split; try reflexivity.
  all: apply count_data_lines_stats_print.
Qed.

Lemma lines_line_app (body rest : list SerialOut) :
  lines ((body ++ [OEol]) ++ rest) = lines (body ++ [OEol]) ++ lines rest.
Proof.
  unfold lines; rewrite <- app_assoc; cbn [app]; apply lines_aux_app_eol.
Qed.

(** A payload from the radio, at the base station: when its byte 0 is
    [PROTOCOL_VERSION], [loop] writes exactly one data record, whose fields
    read back as the little-endian values of bytes 1-2 (seq), 3-6
    (timestamp), 7 (button) and the twelve [int16_t] of bytes 8-31, in
    order; otherwise it writes the warning with byte 0 and no data record. *)
Theorem loop_payload_record (b : Base) (now : Z) (bs : list Z) :
  List.length bs = Z.to_nat PACKET_SIZE -> Forall is_byte bs ->
  let r := loop b now (Some (decode_packet bs)) in
  (rd_u8 bs 0 = PROTOCOL_VERSION ->
     count_data_lines (snd r) = 1%nat
     /\ exists body txt,
          In body (lines (snd r)) /\ line_text body = Some txt
          /\ map parse_int (split_comma txt)
             = map Some [rd_u16 bs 1; rd_u32 bs 3; rd_u8 bs 7;
                         rd_i16 bs 8; rd_i16 bs 10; rd_i16 bs 12;
                         rd_i16 bs 14; rd_i16 bs 16; rd_i16 bs 18;
                         rd_i16 bs 20; rd_i16 bs 22; rd_i16 bs 24;
                         rd_i16 bs 26; rd_i16 bs 28; rd_i16 bs 30])
  /\ (rd_u8 bs 0 <> PROTOCOL_VERSION ->
     count_data_lines (snd r) = 0%nat
     /\ In (warn_line (rd_u8 bs 0)) (lines (snd r))).
Proof.
  intros Hl Hb r; subst r.
  pose proof (decode_packet_wf bs Hb) as Hwf.
  destruct (loop_output_packet b now (decode_packet bs)) as (out2 & E & C2).
  rewrite E; clear E.
  change (version (decode_packet bs)) with (rd_u8 bs 0).
  split; intros Hv.
  - rewrite Hv; cbn [negb Z.eqb PROTOCOL_VERSION Pos.eqb].
    destruct (print_csv_line_shape _ Hwf) as (body & txt & Eb & _ & L & T & P & _).
    rewrite Eb, count_data_lines_app, <- Eb, C2.
    destruct (print_csv_line_one_record _ Hwf) as (body' & _ & _ & _ & C1).
    split; [rewrite C1; reflexivity|].
    exists body, txt; split; [|split; [exact T | exact P]].
    rewrite Eb, lines_line_app, <- Eb, L; left; reflexivity.
  - apply Z.eqb_neq in Hv; rewrite Hv; cbn [negb ser_str ser_uint app].
    change (OText "#[WARN] Bad version: " :: OText (print_number (rd_u8 bs 0)) :: OEol :: out2)
      with ((warn_line (rd_u8 bs 0) ++ [OEol]) ++ out2).
    rewrite count_data_lines_app, C2, lines_line_app; split; [reflexivity|].
    left; reflexivity.
Qed.

(** ** Loss counting over a stream of packets

    The remote numbers its packets [0, 1, 2, ...] modulo 65536 (its
    [seq_counter] is a [uint16_t]).  The base receives some of them, in
    order: the packets of stream indices [i0 < i1 < ...]. *)

(** Each received index follows the previous one by at most 65536. *)
Fixpoint gaps_ok (prev : Z) (l : list Z) : Prop :=
  match l with
  | [] => True
  | i :: l' => prev < i <= prev + 65536 /\ gaps_ok i l'
  end.

Fixpoint last_index (prev : Z) (l : list Z) : Z :=
  match l with
  | [] => prev
  | i :: l' => last_index i l'
  end.

Lemma u16_idem (z : Z) : u16 (u16 z) = u16 z.
Proof. unfold u16; apply Z.mod_mod; lia. Qed.

Lemma u32_add_u32 (a b : Z) : u32 (u32 a + b) = u32 (a + b).
Proof. unfold u32; rewrite Z.add_mod_idemp_l by lia; reflexivity. Qed.

Lemma u16_gap (prev i : Z) : prev < i <= prev + 65536 ->
  u16 (u16 i - u16 (u16 prev + 1)) = i - prev - 1.
Proof.
  intros H; unfold u16.
  rewrite Zplus_mod_idemp_l, Zminus_mod_idemp_l, Zminus_mod_idemp_r.
  replace (i - (prev + 1)) with (i - prev - 1) by lia.
  apply Z.mod_small; lia.
Qed.

Lemma stats_run_missing (l : list Z) :
  forall st prev,
    seq_initialized st = true -> last_seq st = u16 prev ->
    0 <= packets_received st < 4294967296 ->
    0 <= packets_lost st < 4294967296 -> gaps_ok prev l ->
    packets_received (stats_run st (map u16 l))
      = u32 (packets_received st + Z.of_nat (List.length l))
    /\ packets_lost (stats_run st (map u16 l))
      = u32 (packets_lost st + (last_index prev l - prev - Z.of_nat (List.length l)))
    /\ last_seq (stats_run st (map u16 l)) = u16 (last_index prev l).
Proof.
  induction l as [|i l IH]; intros st prev Hi Hs Hv Hr Hg.
  - cbn [stats_run fold_left map last_index List.length Z.of_nat].
    rewrite Z.sub_diag, !Z.add_0_r, !u32_id by lia.
    repeat split; exact Hs.
  - destruct Hg as [Hgi Hg].
    cbn [stats_run map fold_left last_index List.length].
    assert (L : packets_lost (stats_update st (u16 i)) = u32 (packets_lost st + (i - prev - 1))).
    { rewrite stats_update_lost_step by assumption; rewrite Hs, u16_gap by exact Hgi.
      reflexivity. }
    destruct (IH (stats_update st (u16 i)) i) as (R1 & R2 & R3).
    + reflexivity.
    + cbn [stats_update last_seq]; apply u16_idem.
    + apply u32_range.
    + rewrite L; apply u32_range.
    + exact Hg.
    + unfold stats_run in R1, R2, R3; rewrite R1, R2, R3, L.
      cbn [stats_update packets_received].
      rewrite !u32_add_u32; repeat split; f_equal; lia.
Qed.

(** The base counts as lost exactly the packets of the stream that it did
    not receive between the first and the last one it received: after
    [stats_init], receiving the packets of indices [i0 < i1 < ... < ik],
    each at most 65536 after the previous, gives [packets_received = k + 1]
    and [packets_lost = ik - i0 - k], the number of indices skipped (both
    modulo 2^32, as [uint32_t]). *)
Theorem stats_count_missing (now i0 : Z) (l : list Z) :
  gaps_ok i0 l ->
  let st := stats_run (stats_init now) (map u16 (i0 :: l)) in
  packets_received st = u32 (1 + Z.of_nat (List.length l))
  /\ packets_lost st = u32 (last_index i0 l - i0 - Z.of_nat (List.length l))
  /\ last_seq st = u16 (last_index i0 l).
Proof.
  intros Hg st; subst st.
  cbn [map stats_run fold_left].
  destruct (stats_run_missing l (stats_update (stats_init now) (u16 i0)) i0) as (R1 & R2 & R3);
    try reflexivity; try (cbn; lia); try exact Hg.
  - cbn [stats_update last_seq]; apply u16_idem.
  - unfold stats_run in R1, R2, R3; rewrite R1, R2, R3; cbn [stats_update stats_init
      packets_received packets_lost negb seq_initialized].
    repeat split; f_equal; unfold u32; rewrite ?Z.mod_small by lia; lia.
Qed.

(** ** The no-data LED of the base station *)

(** Successive calls of [loop], each at a time given in ms since reset,
    with the packet received at that call, if any. *)
Fixpoint base_run (b : Base) (calls : list (Z * option SensorPacket)) : Base :=
  match calls with
  | [] => b
  | (t, rx) :: cs => base_run (fst (loop b t rx)) cs
  end.

(** The time of the last call that received a packet ([trx] when none did). *)
Fixpoint last_rx_time (trx : Z) (calls : list (Z * option SensorPacket)) : Z :=
  match calls with
  | [] => trx
  | (t, Some _) :: cs => last_rx_time t cs
  | (_, None) :: cs => last_rx_time trx cs
  end.

Fixpoint last_call_time (tp : Z) (calls : list (Z * option SensorPacket)) : Z :=
  match calls with
  | [] => tp
  | (t, _) :: cs => last_call_time t cs
  end.

(** Call times do not decrease and stay below 2^32 ms, so that [millis()]
    has not wrapped around. *)
Fixpoint times_ok (tp : Z) (calls : list (Z * option SensorPacket)) : Prop :=
  match calls with
  | [] => True
  | (t, _) :: cs => tp <= t < 4294967296 /\ times_ok t cs
  end.

Definition base_setup_state (t0 : Z) : Base :=
  match fst (setup true t0) with Some b => b | None => base_boot end.

Lemma base_run_led (calls : list (Z * option SensorPacket)) :
  forall b tp trx,
    last_receive_time b = trx -> 0 <= trx <= tp ->
    led b = (NO_DATA_TIMEOUT <? tp - trx) -> times_ok tp calls ->
    led (base_run b calls) = (NO_DATA_TIMEOUT <? last_call_time tp calls - last_rx_time trx calls)
    /\ last_receive_time (base_run b calls) = last_rx_time trx calls.
Proof.
  induction calls as [|[t rx] cs IH]; intros b tp trx Hl Ht Hled Hok.
  - split; assumption.
  - destruct Hok as [Htp Hok]; cbn [base_run last_call_time last_rx_time].
    assert (Hu : u32 t = t) by (apply u32_id; lia).
    destruct rx as [p|].
    + apply (IH _ t t); try lia; try exact Hok.
      * unfold loop; rewrite Hu; destruct (negb _), (STATS_INTERVAL <=? _); reflexivity.
      * unfold loop; rewrite Hu; destruct (negb _), (STATS_INTERVAL <=? _);
          cbn [fst led last_receive_time]; rewrite Z.sub_diag; reflexivity.
    + apply (IH _ t trx); try lia; try exact Hok.
      * unfold loop; destruct (STATS_INTERVAL <=? _); exact Hl.
      * unfold loop; rewrite Hu, Hl; rewrite (u32_id (t - trx)) by lia.
        destruct (STATS_INTERVAL <=? _); cbn [fst led last_receive_time];
          destruct (Z.ltb_spec NO_DATA_TIMEOUT (t - trx)); try reflexivity;
          rewrite Hled; apply Z.ltb_ge; lia.
Qed.

(** After [setup] at time [t0] and calls of [loop] at non-decreasing times
    below 2^32 ms, the LED is on exactly when more than [NO_DATA_TIMEOUT]
    ms separate the last call from the last call that received a packet
    (from [setup] when none did); a packet of a bad version counts as
    received. *)
Theorem base_led_no_data (t0 : Z) (calls : list (Z * option SensorPacket)) :
  0 <= t0 < 4294967296 -> times_ok t0 calls ->
  let b := base_run (base_setup_state t0) calls in
  led b = (NO_DATA_TIMEOUT <? last_call_time t0 calls - last_rx_time t0 calls)
  /\ last_receive_time b = last_rx_time t0 calls.
Proof.
  intros H0 Hok b; subst b.
  apply base_run_led; try lia; try exact Hok.
  - unfold base_setup_state; cbn [setup negb fst last_receive_time]; apply u32_id, H0.
  - unfold base_setup_state; cbn [setup negb fst led]; rewrite Z.sub_diag; reflexivity.
Qed.

(** ** A stable reading of the button is reported *)

Lemma button_update_current (b : Button) (reading : bool) (now : Z) :
  current_state (button_update b reading now)
  = if DEBOUNCE_MS <=? u32 (u32 now - last_change (button_update b reading now))
    then last_reading (button_update b reading now) else current_state b.
Proof.
  unfold button_update; destruct (negb (Bool.eqb reading (last_reading b))); reflexivity.
Qed.

Section DebounceStable.

Variable obs : nat -> Z * bool.
Hypothesis time_mono : forall i, 0 <= fst (obs i) <= fst (obs (S i)).

(** While the reading is [v] from call [j] on, [last_reading] is [v] and
    [last_change] is the time of a call no later than [j]. *)
Lemma button_stable_inv (j m : nat) (v : bool) :
  (j <= m)%nat -> (forall i, (j <= i <= m)%nat -> snd (obs i) = v) ->
  last_reading (button_trace obs m) = v
  /\ exists j', (j' <= j)%nat /\ last_change (button_trace obs m) = u32 (fst (obs j')).
Proof.
  induction m as [|m IH]; intros Hj Hv.
  - assert (j = O) by lia; subst j.
    split; [apply Hv; lia|]; exists O; split; reflexivity.
  - destruct (Nat.eq_dec j (S m)) as [->|Hne].
    + cbn [button_trace]; unfold button_update.
      destruct (Bool.eqb (snd (obs (S m))) (last_reading (button_trace obs m))) eqn:E;
        cbn [negb last_reading last_change].
      * apply Bool.eqb_prop in E; split; [rewrite <- E; apply Hv; lia|].
        destruct (button_trace_inv obs m) as (j' & Hj' & Hc & _).
        exists j'; split; [lia | exact Hc].
      * split; [apply Hv; lia|]; exists (S m); split; reflexivity.
    + destruct IH as [Hr (j' & Hj' & Hc)]; [lia | intros i Hi; apply Hv; lia|].
      assert (Hs : snd (obs (S m)) = v) by (apply Hv; lia).
      cbn [button_trace]; unfold button_update; rewrite Hs, Hr, Bool.eqb_reflx.
      cbn [negb last_reading last_change]; split; [reflexivity|].
      exists j'; split; [exact Hj' | exact Hc].
Qed.

(** If the reading has been [v] at every call from call [j] to call [S k],
    and at least [DEBOUNCE_MS] separate call [j] from call [S k] (before
    [millis()] wraps around), then [button_is_pressed] is [v] after call
    [S k]: a press or release held for the debounce time is reported. *)
Theorem button_stable_reported (j k : nat) (v : bool) :
  (j <= S k)%nat -> (forall i, (j <= i <= S k)%nat -> snd (obs i) = v) ->
  DEBOUNCE_MS <= fst (obs (S k)) - fst (obs j) -> fst (obs (S k)) < 4294967296 ->
  button_is_pressed (button_trace obs (S k)) = v.
Proof.
  intros Hj Hv Hd Hw.
  destruct (button_stable_inv j (S k) v Hj Hv) as [Hr (j' & Hj' & Hc)].
  pose proof (obs_time_le obs time_mono j' j Hj') as T1.
  pose proof (obs_time_le obs time_mono j (S k) Hj) as T2.
  pose proof (obs_time_nonneg obs time_mono j') as T0.
  unfold button_is_pressed.
  change (button_trace obs (S k))
    with (button_update (button_trace obs k) (snd (obs (S k))) (fst (obs (S k)))) in *.
  rewrite button_update_current, Hc, Hr.
  rewrite (u32_id (fst (obs (S k)))), (u32_id (fst (obs j'))), u32_id by lia.
  destruct (Z.leb_spec DEBOUNCE_MS (fst (obs (S k)) - fst (obs j'))); [reflexivity | lia].
Qed.

End DebounceStable.

(** ** The remote unit ([remote/main_remote.ino], [imu_driver.cpp], [rf_link.cpp]) *)

Definition SAMPLE_INTERVAL_MS : Z := 10.
Definition RF_FAIL_THRESHOLD : Z := 20.

(** [IMU_RawData]: six [int16_t]. *)
Record IMU_RawData := mkIMU { ax : Z; ay : Z; az : Z; gx : Z; gy : Z; gz : Z }.

Definition imu_in_range (d : IMU_RawData) : bool :=
  forallb in_int16 [ax d; ay d; az d; gx d; gy d; gz d].

(** [imu_init]: [ok1] and [ok2] are the results of [init_single] for the
    two addresses. *)
Definition imu_init (ok1 ok2 : bool) : Z :=
  let result := 0 in
  let result := if negb ok1 then Z.lor result 1 else result in
  if negb ok2 then Z.lor result 2 else result.

(** What [error_blink] does with the LED: writes and delays. *)
Inductive LedStep := LedWrite (high : bool) | Delay (ms : Z).

Definition error_blink (code : Z) : list LedStep :=
  List.concat (repeat [LedWrite true; Delay 200; LedWrite false; Delay 200] (Z.to_nat (u8 code)))
  ++ [Delay 1000].

(** The number of flashes of a waveform. *)
Definition flashes (w : list LedStep) : nat :=
  List.length (filter (fun s => match s with LedWrite true => true | _ => false end) w).

(** [button_get_state]. *)
Definition button_get_state (b : Button) : Z := if current_state b then 1 else 0.

(** The static variables of the remote; [system_ok] is written but never
    read, and is left out. *)
Record Remote := mkRemote {
  r_packet : SensorPacket;
  seq_counter : Z;        (* uint16_t *)
  last_sample_time : Z;   (* unsigned long *)
  r_button : Button;
  fail_count : Z;         (* uint16_t, in rf_link.cpp *)
  r_led : bool
}.

(** [setup] either runs on or blinks an error code forever. *)
Inductive RemoteBoot := Running (st : Remote) | ErrorBlink (code : Z).

(** The state after a successful [setup] ([now] is [millis()]; [reading] is
    the pin as [button_init] reads it). *)
Definition remote_init_state (reading : bool) (now : Z) : Remote :=
  {| r_packet := {| version := PROTOCOL_VERSION; seq := 0; timestamp := 0; button := 0;
                    mpu1_ax := 0; mpu1_ay := 0; mpu1_az := 0; mpu1_gx := 0; mpu1_gy := 0;
                    mpu1_gz := 0; mpu2_ax := 0; mpu2_ay := 0; mpu2_az := 0; mpu2_gx := 0;
                    mpu2_gy := 0; mpu2_gz := 0 |};
     seq_counter := 0; last_sample_time := u32 now; r_button := button_init reading now;
     fail_count := 0; r_led := false |}.

(** [setup] of the remote: [ok1], [ok2] are the [init_single] results and
    [rf_ok] the result of [rf_init]. *)
Definition remote_setup (ok1 ok2 rf_ok reading : bool) (now : Z) : RemoteBoot :=
  let imu_status := imu_init ok1 ok2 in
  if negb (imu_status =? 0) then ErrorBlink imu_status
  else if negb rf_ok then ErrorBlink 3
  else Running (remote_init_state reading now).

(** What one call of [loop] sees: [millis()], the button pin, the two IMU
    readings when [imu_read_both] returns 0, whether [radio.write] got its
    acknowledgement, and the result of [rf_reinit] if it is called. *)
Record RemoteIn := mkRemoteIn {
  ri_now : Z;
  ri_reading : bool;
  ri_imu : option (IMU_RawData * IMU_RawData);
  ri_sent : bool;
  ri_reinit_ok : bool
}.

(** [loop] of the remote: the next state ([None] when it ends in the
    endless [error_blink(3)] loop) and the packet given to [rf_send]. *)
Definition remote_loop (st : Remote) (i : RemoteIn) : option Remote * option SensorPacket :=
  let now := u32 (ri_now i) in
  let btn := button_update (r_button st) (ri_reading i) now in
  if u32 (now - last_sample_time st) <? SAMPLE_INTERVAL_MS then
    (Some {| r_packet := r_packet st; seq_counter := seq_counter st;
             last_sample_time := last_sample_time st; r_button := btn;
             fail_count := fail_count st; r_led := r_led st |}, None)
  else
    match ri_imu i with
    | None =>
        (Some {| r_packet := r_packet st; seq_counter := seq_counter st;
                 last_sample_time := now; r_button := btn;
                 fail_count := fail_count st; r_led := true |}, None)
    | Some (imu1, imu2) =>
        let p := {| version := version (r_packet st); seq := seq_counter st;
                    timestamp := now; button := button_get_state btn;
                    mpu1_ax := ax imu1; mpu1_ay := ay imu1; mpu1_az := az imu1;
                    mpu1_gx := gx imu1; mpu1_gy := gy imu1; mpu1_gz := gz imu1;
                    mpu2_ax := ax imu2; mpu2_ay := ay imu2; mpu2_az := az imu2;
                    mpu2_gx := gx imu2; mpu2_gy := gy imu2; mpu2_gz := gz imu2 |} in
        let fc := if ri_sent i then 0 else u16 (fail_count st + 1) in
        let st2 := {| r_packet := p; seq_counter := u16 (seq_counter st + 1);
                      last_sample_time := now; r_button := btn;
                      fail_count := fc; r_led := negb (ri_sent i) |} in
        if RF_FAIL_THRESHOLD <=? fc then
          if ri_reinit_ok i then
            (Some {| r_packet := p; seq_counter := u16 (seq_counter st + 1);
                     last_sample_time := now; r_button := btn;
                     fail_count := 0; r_led := negb (ri_sent i) |}, Some p)
          else (None, Some p)
        else (Some st2, Some p)
    end.

(** The packets sent during successive calls of [loop], and the final state. *)
Fixpoint remote_run (st : Remote) (ins : list RemoteIn) : list SensorPacket * option Remote :=
  match ins with
  | [] => ([], Some st)
  | i :: is =>
      let '(ost, op) := remote_loop st i in
      let sent := match op with Some p => [p] | None => [] end in
      match ost with
      | None => (sent, None)
      | Some st' => let '(ps, r) := remote_run st' is in (sent ++ ps, r)
      end
  end.

Definition imu_input_ok (i : RemoteIn) : bool :=
  match ri_imu i with
  | Some (d1, d2) => imu_in_range d1 && imu_in_range d2
  | None => true
  end.

Lemma remote_loop_step (st : Remote) (i : RemoteIn) :
  0 <= seq_counter st < 65536 -> imu_input_ok i = true ->
  match remote_loop st i with
  | (ost, None) =>
      exists st', ost = Some st' /\ seq_counter st' = seq_counter st
                  /\ version (r_packet st') = version (r_packet st)
  | (ost, Some p) =>
      seq p = seq_counter st /\ version p = version (r_packet st)
      /\ (is_byte (version (r_packet st)) -> wf_packet p = true)
      /\ forall st', ost = Some st' ->
           seq_counter st' = u16 (seq_counter st + 1)
           /\ version (r_packet st') = version (r_packet st)
  end.
Proof.
  intros Hs Hi; unfold remote_loop.
  destruct (u32 (u32 (ri_now i) - last_sample_time st) <? SAMPLE_INTERVAL_MS).
  { eexists; split; [reflexivity | split; reflexivity]. }
  unfold imu_input_ok in Hi; destruct (ri_imu i) as [[d1 d2]|].
  2: { eexists; split; [reflexivity | split; reflexivity]. }
  apply andb_prop in Hi; destruct Hi as [H1 H2].
  assert (W : is_byte (version (r_packet st)) ->
              wf_packet {| version := version (r_packet st); seq := seq_counter st;
                    timestamp := u32 (ri_now i);
                    button := button_get_state (button_update (r_button st) (ri_reading i)
                                                  (u32 (ri_now i)));
                    mpu1_ax := ax d1; mpu1_ay := ay d1; mpu1_az := az d1;
                    mpu1_gx := gx d1; mpu1_gy := gy d1; mpu1_gz := gz d1;
                    mpu2_ax := ax d2; mpu2_ay := ay d2; mpu2_az := az d2;
                    mpu2_gx := gx d2; mpu2_gy := gy d2; mpu2_gz := gz d2 |} = true).
  { intros Hv; unfold wf_packet, is_byte in *;
      cbn [version seq timestamp button mpu1_ax mpu1_ay mpu1_az mpu1_gx mpu1_gy mpu1_gz
           mpu2_ax mpu2_ay mpu2_az mpu2_gx mpu2_gy mpu2_gz].
    unfold imu_in_range in H1, H2; cbn [forallb] in H1, H2 |- *.
    repeat rewrite andb_true_iff in H1, H2.
    destruct H1 as (-> & -> & -> & -> & -> & -> & _).
    destruct H2 as (-> & -> & -> & -> & -> & -> & _).
    pose proof (u32_range (ri_now i)).
    assert (0 <= button_get_state (button_update (r_button st) (ri_reading i) (u32 (ri_now i))) <= 1)
      by (unfold button_get_state; destruct (current_state _); lia).
    cbn [andb]; rewrite !andb_true_r.
    repeat (apply andb_true_intro; split); (apply Z.leb_le || apply Z.ltb_lt); lia. }
  destruct (RF_FAIL_THRESHOLD <=? _); [destruct (ri_reinit_ok i)|].
  all: split; [reflexivity|]; split; [reflexivity|]; split; [exact W|].
  all: intros st' E; try discriminate; injection E as <-; split; reflexivity.
Qed.

Lemma remote_run_packets (ins : list RemoteIn) :
  forall st n, seq_counter st = u16 n -> version (r_packet st) = PROTOCOL_VERSION ->
  forallb imu_input_ok ins = true ->
  forall j p, nth_error (fst (remote_run st ins)) j = Some p ->
  seq p = u16 (n + Z.of_nat j) /\ version p = PROTOCOL_VERSION /\ wf_packet p = true.
Proof.
  induction ins as [|i ins IH]; intros st n Hs Hv Hall j p Hj.
  - destruct j; discriminate.
  - cbn [forallb] in Hall; apply andb_prop in Hall; destruct Hall as [Hi Hall].
    assert (Hr : 0 <= seq_counter st < 65536) by (rewrite Hs; apply u16_range).
    pose proof (remote_loop_step st i Hr Hi) as Step.
    cbn [remote_run] in Hj.
    destruct (remote_loop st i) as [ost [q|]].
    + destruct Step as (Sq & Vq & Wq & Next).
      destruct j as [|j].
      * destruct ost as [st'|]; [destruct (remote_run st' ins)|]; cbn in Hj;
          injection Hj as <-; rewrite Sq, Vq, Hs, Z.add_0_r;
          repeat split; try reflexivity; try exact Hv; apply Wq; rewrite Hv; unfold is_byte, PROTOCOL_VERSION; lia.
      * destruct ost as [st'|]; [|destruct j; discriminate].
        destruct (Next st' eq_refl) as [Ns Nv].
        destruct (remote_run st' ins) as [ps r] eqn:Er; cbn in Hj.
        destruct (IH st' (n + 1)) with (j := j) (p := p) as (A & B & C).
        -- rewrite Ns, Hs; unfold u16; rewrite Zplus_mod_idemp_l; reflexivity.
        -- rewrite Nv; exact Hv.
        -- exact Hall.
        -- rewrite Er; exact Hj.
        -- repeat split; auto; rewrite A; f_equal; lia.
    + destruct Step as (st' & -> & Ns & Nv).
      destruct (remote_run st' ins) as [ps r] eqn:Er; cbn in Hj.
      destruct (IH st' n) with (j := j) (p := p) as (A & B & C); auto.
      * rewrite Ns; exact Hs.
      * rewrite Nv; exact Hv.
      * rewrite Er; exact Hj.
Qed.

(** After a successful [setup], the packets the remote gives to [rf_send]
    are numbered 0, 1, 2, ... modulo 65536 in the order they are sent (a
    sample skipped because an IMU read failed takes no number), all carry
    [PROTOCOL_VERSION], and all have in-range fields. *)
Theorem remote_packets_numbered (reading : bool) (now : Z) (ins : list RemoteIn) :
  forallb imu_input_ok ins = true ->
  forall j p, nth_error (fst (remote_run (remote_init_state reading now) ins)) j = Some p ->
  seq p = u16 (Z.of_nat j) /\ version p = PROTOCOL_VERSION /\ wf_packet p = true.
Proof.
  intros Hall j p Hj.
  destruct (remote_run_packets ins (remote_init_state reading now) 0 eq_refl eq_refl Hall j p Hj)
    as (A & B & C).
  repeat split; auto.
Qed.

(** The remote gives up (the endless [error_blink(3)]) only at a call whose
    send fails while [RF_FAIL_THRESHOLD - 1] failures are already counted
    and whose [rf_reinit] fails; otherwise the failure counter stays below
    [RF_FAIL_THRESHOLD] (it starts at 0 after [setup]). *)
Theorem remote_halts_after_failures (st : Remote) (i : RemoteIn) :
  0 <= fail_count st < RF_FAIL_THRESHOLD ->
  match fst (remote_loop st i) with
  | None => ri_sent i = false /\ fail_count st = RF_FAIL_THRESHOLD - 1 /\ ri_reinit_ok i = false
  | Some st' => 0 <= fail_count st' < RF_FAIL_THRESHOLD
  end.
Proof.
  intros H; unfold remote_loop.
  destruct (u32 (u32 (ri_now i) - last_sample_time st) <? SAMPLE_INTERVAL_MS); [exact H|].
  destruct (ri_imu i) as [[d1 d2]|]; [|exact H].
  unfold RF_FAIL_THRESHOLD in *.
  destruct (ri_sent i); cbn [fst fail_count].
  - destruct (Z.leb_spec 20 0); [lia|]; cbn; lia.
  - unfold u16; rewrite Z.mod_small by lia.
    destruct (Z.leb_spec 20 (fail_count st + 1)); [destruct (ri_reinit_ok i)|]; cbn; lia.
Qed.

(** [setup] of the remote runs on only when both IMUs and the radio come
    up. Otherwise it blinks 1 flash for MPU1 alone, 2 for MPU2 alone, and 3
    both for two failed IMUs and for a failed radio, so these two failures
    give the same code. *)
Theorem remote_setup_codes (ok1 ok2 rf_ok reading : bool) (now : Z) :
  match remote_setup ok1 ok2 rf_ok reading now with
  | Running st => ok1 = true /\ ok2 = true /\ rf_ok = true /\ st = remote_init_state reading now
  | ErrorBlink c =>
      flashes (error_blink c) =
        (if ok1 && ok2 then 3 else (if ok1 then 0 else 1) + (if ok2 then 0 else 2))%nat
  end.
Proof.
  destruct ok1, ok2, rf_ok; unfold remote_setup, imu_init;
    cbn -[remote_init_state error_blink flashes];
    first [repeat split; reflexivity | vm_compute; reflexivity].
Qed.

(** ** Reconnection of the front end's WebSocket (websocket.js) *)

Module Reconnect.

Definition RECONNECT_DELAY : Z := 3000.
Definition MAX_RECONNECT_ATTEMPTS : Z := 5.

(** The module variables the reconnection logic reads: [reconnectAttempts]
    and whether [reconnectTimer] holds a pending timer. [ws] and the
    handlers' other effects (status display, logging) do not bear on them. *)
Record WsState := mkWsState {
  reconnectAttempts : Z;
  reconnectTimer : bool
}.

(** [scheduleReconnect]: the new state and the delay given to [setTimeout],
    if it is called. *)
Definition scheduleReconnect (s : WsState) : WsState * option Z :=
  if reconnectTimer s then (s, None)
  else
    let a := reconnectAttempts s + 1 in
    (mkWsState a true, Some (RECONNECT_DELAY * a)).

(** The events that change these variables: a socket's [onopen] and
    [onclose], the reconnection timer firing (its callback clears
    [reconnectTimer], then [initWebSocket] only opens a socket), and
    [closeWebSocket]. [onmessage] and [onerror] change neither. *)
Inductive WsEvent := EvOpen | EvClose | EvTimerFire | EvCloseWebSocket.

Definition ws_step (s : WsState) (e : WsEvent) : WsState * option Z :=
  match e with
  | EvOpen => (mkWsState 0 (reconnectTimer s), None)
  | EvClose =>
      if reconnectAttempts s <? MAX_RECONNECT_ATTEMPTS then scheduleReconnect s
      else (s, None)
  | EvTimerFire => (mkWsState (reconnectAttempts s) false, None)
  | EvCloseWebSocket => (mkWsState (reconnectAttempts s) false, None)
  end.

(** The final state and the delays of the timers set, in order. *)
Fixpoint ws_run (s : WsState) (es : list WsEvent) : WsState * list Z :=
  match es with
  | [] => (s, [])
  | e :: es' =>
      let '(s1, d) := ws_step s e in
      let '(s2, ds) := ws_run s1 es' in
      (s2, match d with Some x => x :: ds | None => ds end)
  end.

Definition is_open (e : WsEvent) : bool :=
  match e with EvOpen => true | _ => false end.

Lemma ws_step_attempts (s : WsState) (e : WsEvent) :
  0 <= reconnectAttempts s <= MAX_RECONNECT_ATTEMPTS ->
  0 <= reconnectAttempts (fst (ws_step s e)) <= MAX_RECONNECT_ATTEMPTS.
Proof.
  intros H; destruct e; cbn [ws_step fst reconnectAttempts]; unfold MAX_RECONNECT_ATTEMPTS in *; try lia.
  destruct (Z.ltb_spec (reconnectAttempts s) 5); [|cbn [fst]; lia].
  unfold scheduleReconnect; destruct (reconnectTimer s); cbn [fst reconnectAttempts]; lia.
Qed.

(** Without a successful connection, the reconnection delays the client
    waits are 3 s, 6 s, 9 s, ... counting on from the attempts already
    made, one more each time, and no timer is set once
    [MAX_RECONNECT_ATTEMPTS] is reached: [closeWebSocket] does not reset
    the count. *)
Theorem reconnect_backoff (es : list WsEvent) :
  forall (a : nat) (t : bool), (a <= 5)%nat -> forallb (fun e => negb (is_open e)) es = true ->
  exists n, (a + n <= 5)%nat /\
    snd (ws_run (mkWsState (Z.of_nat a) t) es)
    = map (fun k => RECONNECT_DELAY * Z.of_nat k) (List.seq (S a) n).
Proof.
  induction es as [|e es IH]; intros a t Ha Hno.
  - exists 0%nat; split; [lia | reflexivity].
  - cbn [forallb] in Hno; apply andb_prop in Hno; destruct Hno as [He Hno].
    cbn [ws_run].
    destruct e; try discriminate He; cbn [ws_step reconnectAttempts reconnectTimer].
    + unfold MAX_RECONNECT_ATTEMPTS.
      destruct (Z.ltb_spec (Z.of_nat a) 5).
      * unfold scheduleReconnect; cbn [reconnectTimer reconnectAttempts]; destruct t.
        -- destruct (IH a true Ha Hno) as (n & Hn & E).
           destruct (ws_run _ es) as [s2 ds]; cbn in E |- *; exists n; auto.
        -- destruct (IH (S a) true ltac:(lia) Hno) as (n & Hn & E).
           replace (Z.of_nat a + 1) with (Z.of_nat (S a)) by lia.
           destruct (ws_run _ es) as [s2 ds]; cbn in E |- *.
           exists (S n); split; [lia|]; rewrite E; reflexivity.
      * destruct (IH a t Ha Hno) as (n & Hn & E).
        destruct (ws_run _ es) as [s2 ds]; cbn in E |- *; exists n; auto.
    + destruct (IH a false Ha Hno) as (n & Hn & E).
      destruct (ws_run _ es) as [s2 ds]; cbn in E |- *; exists n; auto.
    + destruct (IH a false Ha Hno) as (n & Hn & E).
      destruct (ws_run _ es) as [s2 ds]; cbn in E |- *; exists n; auto.
Qed.

(** Whatever the events, every reconnection delay is one of 3 s, 6 s, 9 s,
    12 s and 15 s, and no timer is set while another is pending. *)
Theorem reconnect_delays_bounded (es : list WsEvent) :
  forall s, 0 <= reconnectAttempts s <= MAX_RECONNECT_ATTEMPTS ->
  Forall (fun d => exists k, 1 <= k <= MAX_RECONNECT_ATTEMPTS /\ d = RECONNECT_DELAY * k)
         (snd (ws_run s es))
  /\ 0 <= reconnectAttempts (fst (ws_run s es)) <= MAX_RECONNECT_ATTEMPTS.
Proof.
  induction es as [|e es IH]; intros s Hs.
  - split; [constructor | exact Hs].
  - cbn [ws_run].
    pose proof (ws_step_attempts s e Hs) as Hs1.
    destruct (ws_step s e) as [s1 d] eqn:Es; cbn [fst] in Hs1.
    destruct (IH s1 Hs1) as [F A].
    destruct (ws_run s1 es) as [s2 ds]; cbn in F, A |- *.
    split; [|exact A].
    destruct d as [x|]; [|exact F].
    constructor; [|exact F].
    destruct e; cbn [ws_step] in Es; try discriminate Es.
    unfold MAX_RECONNECT_ATTEMPTS in *.
    destruct (Z.ltb_spec (reconnectAttempts s) 5); [|discriminate Es].
    unfold scheduleReconnect in Es; destruct (reconnectTimer s); [discriminate Es|].
    injection Es as <- <-; exists (reconnectAttempts s + 1); split; [lia | reflexivity].
Qed.

End Reconnect.

(** ** [formatTime] of the replay page (replay.js) *)











(** ** Shot segments of the live tab (live.js) *)

Section Segments.

(** JavaScript values, with the operations the handlers apply: [x / 1000.0],
    [===], truthiness (for [x || null] and [x || {}]), and the values
    [undefined], [null] and [{}]. *)
Variable V : Type.
Variable div1000 : V -> V.
Variable strict_eq : V -> V -> bool.
Variable truthy : V -> bool.
Variables js_undefined js_null js_empty_obj : V.



















End Segments.

(** ** Instances of the properties above *)

Lemma is_byte_check (l : list Z) :
  forallb (fun b => (0 <=? b) && (b <? 256)) l = true -> Forall is_byte l.
Proof.
  induction l as [|b l IH]; cbn [forallb]; intros H; [constructor|].
  apply andb_prop in H; destruct H as [Hb Hl]; apply andb_prop in Hb; destruct Hb as [H1 H2].
  constructor; [unfold is_byte; apply Z.leb_le in H1; apply Z.ltb_lt in H2; lia | exact (IH Hl)].
Qed.

Lemma decode_encode_packet_witness :
  wf_packet sample_packet = true
  /\ List.length (encode_packet sample_packet) = Z.to_nat PACKET_SIZE
  /\ Forall is_byte (encode_packet sample_packet)
  /\ decode_packet (encode_packet sample_packet) = sample_packet.
Proof.
  assert (H : wf_packet sample_packet = true) by reflexivity.
  split; [exact H | exact (decode_encode_packet sample_packet H)].
Defined.

Lemma decode_payload_witness :
  List.length (encode_packet sample_packet) = Z.to_nat PACKET_SIZE
  /\ Forall is_byte (encode_packet sample_packet)
  /\ wf_packet (decode_packet (encode_packet sample_packet)) = true
  /\ encode_packet (decode_packet (encode_packet sample_packet)) = encode_packet sample_packet.
Proof.
  assert (L : List.length (encode_packet sample_packet) = Z.to_nat PACKET_SIZE)
    by (vm_compute; reflexivity).
  assert (B : Forall is_byte (encode_packet sample_packet))
    by (apply is_byte_check; vm_compute; reflexivity).
  split; [exact L|]; split; [exact B|].
  exact (decode_payload (encode_packet sample_packet) L B).
Defined.

Lemma loop_payload_record_witness :
  List.length (encode_packet sample_packet) = Z.to_nat PACKET_SIZE
  /\ Forall is_byte (encode_packet sample_packet)
  /\ rd_u8 (encode_packet sample_packet) 0 = PROTOCOL_VERSION
  /\ count_data_lines
       (snd (loop base_after_setup 10 (Some (decode_packet (encode_packet sample_packet))))) = 1%nat.
Proof.
  assert (L : List.length (encode_packet sample_packet) = Z.to_nat PACKET_SIZE)
    by (vm_compute; reflexivity).
  assert (B : Forall is_byte (encode_packet sample_packet))
    by (apply is_byte_check; vm_compute; reflexivity).
  assert (V : rd_u8 (encode_packet sample_packet) 0 = PROTOCOL_VERSION) by reflexivity.
  split; [exact L|]; split; [exact B|]; split; [exact V|].
  destruct (loop_payload_record base_after_setup 10 (encode_packet sample_packet) L B) as [Hv _].
  exact (proj1 (Hv V)).
Defined.

Lemma stats_count_missing_witness :
  gaps_ok 0 [1; 3; 65539]
  /\ packets_received (stats_run (stats_init 0) (map u16 [0; 1; 3; 65539])) = 4
  /\ packets_lost (stats_run (stats_init 0) (map u16 [0; 1; 3; 65539])) = 65536.
Proof.
  assert (G : gaps_ok 0 [1; 3; 65539]) by (cbn; repeat split; lia).
  split; [exact G|].
  destruct (stats_count_missing 0 0 [1; 3; 65539] G) as (R & Lo & _).
  rewrite R, Lo; split; reflexivity.
Defined.

Definition led_calls : list (Z * option SensorPacket) := [(500, Some sample_packet); (2000, None)].

Lemma base_led_no_data_witness :
  0 <= 0 < 4294967296 /\ times_ok 0 led_calls
  /\ led (base_run (base_setup_state 0) led_calls) = true.
Proof.
  assert (T : 0 <= 0 < 4294967296) by lia.
  assert (O : times_ok 0 led_calls) by (cbn; repeat split; lia).
  split; [exact T|]; split; [exact O|].
  destruct (base_led_no_data 0 led_calls T O) as [Hl _].
  rewrite Hl; reflexivity.
Defined.

Lemma button_stable_reported_witness :
  (forall i, 0 <= fst (press_obs i) <= fst (press_obs (S i)))
  /\ DEBOUNCE_MS <= fst (press_obs 3) - fst (press_obs 1)
  /\ button_is_pressed (button_trace press_obs 3) = true.
Proof.
  assert (Hm : forall i, 0 <= fst (press_obs i) <= fst (press_obs (S i)))
    by (intros i; cbn [press_obs fst]; lia).
  assert (Hd : DEBOUNCE_MS <= fst (press_obs 3) - fst (press_obs 1)) by (vm_compute; discriminate).
  split; [exact Hm|]; split; [exact Hd|].
  apply (button_stable_reported press_obs Hm 1 2 true).
  - lia.
  - intros i Hi; cbn [press_obs snd]; apply Nat.leb_le; lia.
  - exact Hd.
  - vm_compute; reflexivity.
Defined.

Definition imu_sample : IMU_RawData := mkIMU 100 (-100) 16384 5 (-5) 0.

(** A sample sent, a call too early, a failed IMU read, and a sample whose
    send fails. *)
Definition remote_inputs : list RemoteIn :=
  [mkRemoteIn 10 false (Some (imu_sample, imu_sample)) true true;
   mkRemoteIn 15 true None true true;
   mkRemoteIn 20 true None true true;
   mkRemoteIn 40 true (Some (imu_sample, imu_sample)) false true].

Lemma remote_packets_numbered_witness :
  forallb imu_input_ok remote_inputs = true
  /\ exists p, nth_error (fst (remote_run (remote_init_state false 0) remote_inputs)) 1 = Some p
               /\ seq p = 1 /\ button p = 1 /\ wf_packet p = true.
Proof.
  assert (Hall : forallb imu_input_ok remote_inputs = true) by (vm_compute; reflexivity).
  split; [exact Hall|].
  destruct (nth_error (fst (remote_run (remote_init_state false 0) remote_inputs)) 1)
    as [p|] eqn:E.
  - exists p; split; [reflexivity|].
    destruct (remote_packets_numbered false 0 remote_inputs Hall 1 p E) as (A & _ & C).
    split; [exact A|]; split; [|exact C].
    vm_compute in E; injection E as <-; reflexivity.
  - vm_compute in E; discriminate E.
Defined.

Definition remote_failing : Remote :=
  mkRemote (r_packet (remote_init_state false 0)) 7 0 (r_button (remote_init_state false 0)) 19 true.

Lemma remote_halts_after_failures_witness :
  0 <= fail_count remote_failing < RF_FAIL_THRESHOLD
  /\ fst (remote_loop remote_failing (mkRemoteIn 50 false (Some (imu_sample, imu_sample)) false false))
     = None
  /\ ri_sent (mkRemoteIn 50 false (Some (imu_sample, imu_sample)) false false) = false
  /\ fail_count remote_failing = RF_FAIL_THRESHOLD - 1.
Proof.
  assert (H : 0 <= fail_count remote_failing < RF_FAIL_THRESHOLD)
    by (unfold RF_FAIL_THRESHOLD; cbn; lia).
  split; [exact H|].
  pose proof (remote_halts_after_failures remote_failing
                (mkRemoteIn 50 false (Some (imu_sample, imu_sample)) false false) H) as P.
  destruct (fst (remote_loop remote_failing _)) eqn:E.
  - vm_compute in E; discriminate E.
  - destruct P as (A & B & _); split; [reflexivity|]; split; [exact A | exact B].
Defined.

Definition ws_events : list Reconnect.WsEvent :=
  [Reconnect.EvClose; Reconnect.EvTimerFire; Reconnect.EvClose; Reconnect.EvCloseWebSocket;
   Reconnect.EvClose; Reconnect.EvClose; Reconnect.EvTimerFire; Reconnect.EvClose].

Lemma reconnect_backoff_witness :
  (0 <= 5)%nat /\ forallb (fun e => negb (Reconnect.is_open e)) ws_events = true
  /\ exists n, (0 + n <= 5)%nat
     /\ snd (Reconnect.ws_run (Reconnect.mkWsState 0 false) ws_events)
        = map (fun k => Reconnect.RECONNECT_DELAY * Z.of_nat k) (List.seq 1 n).
Proof.
  assert (H1 : (0 <= 5)%nat) by lia.
  assert (H2 : forallb (fun e => negb (Reconnect.is_open e)) ws_events = true) by reflexivity.
  split; [exact H1|]; split; [exact H2|].
  exact (Reconnect.reconnect_backoff ws_events 0 false H1 H2).
Defined.

Lemma reconnect_delays_bounded_witness :
  0 <= Reconnect.reconnectAttempts (Reconnect.mkWsState 4 false) <= Reconnect.MAX_RECONNECT_ATTEMPTS
  /\ snd (Reconnect.ws_run (Reconnect.mkWsState 4 false)
            [Reconnect.EvClose; Reconnect.EvTimerFire; Reconnect.EvClose; Reconnect.EvOpen;
             Reconnect.EvClose]) = [15000; 3000]
  /\ Forall (fun d => exists k, 1 <= k <= Reconnect.MAX_RECONNECT_ATTEMPTS
                                /\ d = Reconnect.RECONNECT_DELAY * k) [15000; 3000].
Proof.
  assert (H : 0 <= Reconnect.reconnectAttempts (Reconnect.mkWsState 4 false)
              <= Reconnect.MAX_RECONNECT_ATTEMPTS)
    by (unfold Reconnect.MAX_RECONNECT_ATTEMPTS; cbn; lia).
  assert (E : snd (Reconnect.ws_run (Reconnect.mkWsState 4 false)
                     [Reconnect.EvClose; Reconnect.EvTimerFire; Reconnect.EvClose; Reconnect.EvOpen;
                      Reconnect.EvClose]) = [15000; 3000]) by reflexivity.
  split; [exact H|]; split; [exact E|].
  destruct (Reconnect.reconnect_delays_bounded
              [Reconnect.EvClose; Reconnect.EvTimerFire; Reconnect.EvClose; Reconnect.EvOpen;
               Reconnect.EvClose] _ H) as [F _].
  rewrite E in F; exact F.
Defined.


